(** * better-lucid: the Lucid migration generator of the better-auth adapter

    A shallow embedding of the schema-generation helpers of [src/adapter.ts]
    ([camelToSnake], [getColumnName], [getKnexType], [buildColumnChain],
    [generateCreateTableBlock], [queryExistingTables], [queryExistingColumns],
    [wrapInBaseSchema], [generateLucidMigration]) and the properties of the
    generated migration text.

    Modelling conventions.
    - A JavaScript string is a [string] (a sequence of bytes); letter case is
      the ASCII one, field keys and identifiers being ASCII.
    - A JavaScript object used as a record of entries
      ([Record<string, DBFieldAttribute>], [BetterAuthDBSchema]) is an
      association list in the enumeration order of [Object.entries] /
      [Object.values].
    - A [Set<string>] is a duplicate-free list in insertion order and a
      [Map<string, Set<string>>] an association list in insertion order: the
      generator iterates over both, so the order is observable.
    - The [order] of a table is an integer.
    - The [db] handle is the content of the two [information_schema] views the
      generator reads; the clock read by [generateTimestamp] is an argument. *)

From Stdlib Require Import List String Ascii Bool ZArith NArith Lia.
From Stdlib Require Import Permutation Sorted DecimalString.
Import ListNotations.
Open Scope string_scope.
Open Scope list_scope.

(** ** JavaScript string and array primitives *)

Module Js.

(** The line feed, written [\n] in the source. *)
Definition LF : string := String (ascii_of_nat 10) EmptyString.

(** [/[A-Z]/] *)
Definition isUpper (c : ascii) : bool :=
  let n := N_of_ascii c in ((65 <=? n) && (n <=? 90))%N.

(** [/\w/], that is [[A-Za-z0-9_]] *)
Definition isWord (c : ascii) : bool :=
  let n := N_of_ascii c in
  (((65 <=? n) && (n <=? 90)) || ((97 <=? n) && (n <=? 122))
   || ((48 <=? n) && (n <=? 57)) || (n =? 95))%N.

Definition toLowerChar (c : ascii) : ascii :=
  if isUpper c then ascii_of_N (N_of_ascii c + 32) else c.

(** [String.prototype.toLowerCase] *)
Fixpoint toLowerCase (s : string) : string :=
  match s with
  | EmptyString => EmptyString
  | String c r => String (toLowerChar c) (toLowerCase r)
  end.

(** [Array.prototype.join] *)
Definition join (sep : string) (l : list string) : string :=
  String.concat sep l.

(** [String.prototype.includes] *)
Fixpoint includes (s needle : string) : bool :=
  if String.prefix needle s then true
  else match s with
       | EmptyString => false
       | String _ r => includes r needle
       end.

(** [text.replace(/\/\/.*/g, '')]: every line comment is removed, up to the
    line terminator. *)
Fixpoint stripLineComments (inComment : bool) (s : string) : string :=
  match s with
  | EmptyString => EmptyString
  | String c r =>
      if inComment then
        if (N_of_ascii c =? 10)%N || (N_of_ascii c =? 13)%N
        then String c (stripLineComments false r)
        else stripLineComments true r
      else
        match r with
        | String c' r' =>
            if Ascii.eqb c "/" && Ascii.eqb c' "/"
            then stripLineComments true r'
            else String c (stripLineComments false r)
        | EmptyString => String c EmptyString
        end
  end.

(** [String(n)] for a non-negative integer. *)
Definition numberToString (n : N) : string :=
  NilEmpty.string_of_uint (N.to_uint n).

(** [s.padStart(2, '0')] *)
Definition padStart2 (s : string) : string :=
  match String.length s with
  | 0 => "00"
  | 1 => ("0" ++ s)%string
  | _ => s
  end.

(** The local [pad] of [generateTimestamp]. *)
Definition pad (n : N) : string := padStart2 (numberToString n).

(** Membership in a [Set<string>] or an array of strings. *)
Definition has (s : list string) (x : string) : bool :=
  existsb (String.eqb x) s.

(** [Set.prototype.add]: insertion order is kept, a present value is not
    added again. *)
Definition setAdd (s : list string) (x : string) : list string :=
  if has s x then s else s ++ [x].

(** [new Set(values)] *)
Definition newSet (values : list string) : list string :=
  fold_left setAdd values [].

(** Look-up of a key in an object or a [Map]. *)
Fixpoint get {A : Type} (m : list (string * A)) (k : string) : option A :=
  match m with
  | [] => None
  | (k', v) :: r => if String.eqb k k' then Some v else get r k
  end.

(** [Array.prototype.sort(compare)]: the sort is stable; for a comparator
    that is a difference of integer keys it is the stable insertion sort. *)
Section Sort.
Context {A : Type} (compare : A -> A -> Z).

Fixpoint insertSorted (x : A) (l : list A) : list A :=
  match l with
  | [] => [x]
  | y :: r => if (compare x y <=? 0)%Z then x :: y :: r
              else y :: insertSorted x r
  end.

Fixpoint sort (l : list A) : list A :=
  match l with
  | [] => []
  | x :: r => insertSorted x (sort r)
  end.
End Sort.

End Js.

(** ** Data model *)

(** The [references] attribute of a field. *)
Record Reference := {
  model : string;
  field : string;
  onDelete : option string
}.

(** The attributes of a [DBFieldAttribute] that the generator reads.  An
    absent boolean attribute is falsy, except [required], which the code
    compares with [false]. *)
Record DBFieldAttribute := {
  type : string;
  required : option bool;
  unique : bool;
  sortable : bool;
  bigint : bool;
  index : bool;
  fieldName : option string;
  references : option Reference
}.

Definition Fields := list (string * DBFieldAttribute).

(** One table of a [BetterAuthDBSchema]. *)
Record Table := {
  modelName : string;
  order : option Z;
  disableMigrations : bool;
  fields : Fields
}.

Definition BetterAuthDBSchema := list (string * Table).

(** ** Schema generation helpers *)

(** [str.replace(/([A-Z])/g, '_$1')] *)
Fixpoint underscoreUpper (str : string) : string :=
  match str with
  | EmptyString => EmptyString
  | String c r =>
      if Js.isUpper c then String "_" (String c (underscoreUpper r))
      else String c (underscoreUpper r)
  end.

Definition camelToSnake (str : string) : string :=
  Js.toLowerCase (underscoreUpper str).

Definition getColumnName (schemaKey : string) (f : DBFieldAttribute) : string :=
  match fieldName f with
  | Some n => n
  | None => camelToSnake schemaKey
  end.

Definition getKnexType (f : DBFieldAttribute) : string :=
  if String.eqb (type f) "string" then
    if sortable f then "string" else "text"
  else if String.eqb (type f) "number" then
    if bigint f then "bigInteger" else "integer"
  else if String.eqb (type f) "boolean" then "boolean"
  else if String.eqb (type f) "date" then "timestamp"
  else if String.eqb (type f) "json" then "jsonb"
  else "text".

Definition ON_DELETE_MAP : list (string * string) :=
  [ ("cascade", "CASCADE");
    ("set null", "SET NULL");
    ("restrict", "RESTRICT");
    ("no action", "NO ACTION");
    ("set default", "SET DEFAULT") ].

(** The chain up to and including the unique constraint: what
    [buildColumnChain] has accumulated in [chain] when it reaches the
    foreign-key test. *)
Definition columnChainHead (schemaKey : string) (f : DBFieldAttribute) : string :=
  let colName := getColumnName schemaKey f in
  let knexType := getKnexType f in
  let typeArg :=
    (if String.eqb knexType "timestamp"
     then "'" ++ colName ++ "', { useTz: true }"
     else "'" ++ colName ++ "'")%string in
  let chain := (knexType ++ "(" ++ typeArg ++ ")")%string in
  let chain :=
    if String.eqb schemaKey "id" then (chain ++ ".primary()")%string else chain in
  let chain :=
    match required f with
    | Some false => (chain ++ ".nullable()")%string
    | _ => (chain ++ ".notNullable()")%string
    end in
  if unique f then (chain ++ ".unique()")%string else chain.

Definition buildColumnChain
    (schemaKey : string) (f : DBFieldAttribute) (allTables : BetterAuthDBSchema)
    : string :=
  let chain := columnChainHead schemaKey f in
  match references f with
  | Some refs =>
      let refModelName :=
        match Js.get allTables (model refs) with
        | Some t => modelName t
        | None => model refs
        end in
      let onDelete :=
        match Js.get ON_DELETE_MAP
                (match onDelete refs with Some a => a | None => "cascade" end) with
        | Some a => a
        | None => "CASCADE"
        end in
      (chain ++ ".references('" ++ field refs ++ "').inTable('" ++ refModelName
         ++ "').onDelete('" ++ onDelete ++ "')")%string
  | None =>
      if index f then (chain ++ ".index()")%string else chain
  end.

(** The entries other than [id], in definition order. *)
Definition nonIdEntries (fs : Fields) : Fields :=
  filter (fun kf => negb (String.eqb (fst kf) "id")) fs.

Definition generateCreateTableBlock
    (name : string) (fs : Fields) (allTables : BetterAuthDBSchema)
    (indent : string) : string :=
  let idLine :=
    match Js.get fs "id" with
    | Some f => [(indent ++ "  table." ++ buildColumnChain "id" f allTables)%string]
    | None => []
    end in
  let lines :=
    idLine ++
    map (fun kf =>
           (indent ++ "  table." ++ buildColumnChain (fst kf) (snd kf) allTables)%string)
        (nonIdEntries fs) in
  (indent ++ "this.schema.createTable('" ++ name ++ "', (table) => {" ++ Js.LF
     ++ Js.join Js.LF lines ++ Js.LF ++ indent ++ "})")%string.

Definition wrapInBaseSchema (upBody downBody : string) : string :=
  Js.join Js.LF
    [ "import { BaseSchema } from '@adonisjs/lucid/schema'";
      EmptyString;
      "export default class extends BaseSchema {";
      "  async up() {";
      upBody;
      "  }";
      EmptyString;
      "  async down() {";
      downBody;
      "  }";
      "}";
      EmptyString ].

(** ** The catalog and the clock *)

(** A row of [information_schema.tables]. *)
Record TableRow := {
  tables_table_schema : string;
  tables_table_name : string;
  table_type : string
}.

(** A row of [information_schema.columns]. *)
Record ColumnRow := {
  columns_table_schema : string;
  columns_table_name : string;
  column_name : string
}.

Record Database := {
  information_schema_tables : list TableRow;
  information_schema_columns : list ColumnRow
}.

(** What [new Date()] returns, read through its getters ([getMonth] counts
    from zero). *)
Record Date := {
  getFullYear : N;
  getMonth : N;
  getDate : N;
  getHours : N;
  getMinutes : N;
  getSeconds : N
}.

Definition generateTimestamp (now : Date) : string :=
  Js.join EmptyString
    [ Js.numberToString (getFullYear now);
      Js.pad (getMonth now + 1);
      Js.pad (getDate now);
      Js.pad (getHours now);
      Js.pad (getMinutes now);
      Js.pad (getSeconds now) ].

Definition queryExistingTables (db : Database) : list string :=
  let rows :=
    filter (fun r => String.eqb (tables_table_schema r) "public"
                     && String.eqb (table_type r) "BASE TABLE")
           (information_schema_tables db) in
  Js.newSet (map tables_table_name rows).

(** [if (!result.has(t)) result.set(t, new Set()); result.get(t).add(c)] *)
Fixpoint addColumn (result : list (string * list string)) (t c : string)
    : list (string * list string) :=
  match result with
  | [] => [(t, Js.setAdd [] c)]
  | (k, s) :: r =>
      if String.eqb t k then (k, Js.setAdd s c) :: r
      else (k, s) :: addColumn r t c
  end.

Definition queryExistingColumns (db : Database) (tableNames : list string)
    : list (string * list string) :=
  match tableNames with
  | [] => []
  | _ =>
      let rows :=
        filter (fun r => String.eqb (columns_table_schema r) "public"
                         && Js.has tableNames (columns_table_name r))
               (information_schema_columns db) in
      fold_left (fun result row =>
                   addColumn result (columns_table_name row) (column_name row))
                rows []
  end.

(** ** The migration generator *)

Record Artifact := {
  code : string;
  path : string;
  overwrite : bool
}.

Definition tableOrder (t : Table) : Z :=
  match order t with Some o => o | None => 999%Z end.

Definition activeTables (tables : BetterAuthDBSchema) : list Table :=
  Js.sort (fun a b => (tableOrder a - tableOrder b)%Z)
          (filter (fun t => negb (disableMigrations t)) (map snd tables)).

Definition createTableStatement (tables : BetterAuthDBSchema) (t : Table) : string :=
  generateCreateTableBlock (modelName t) (fields t) tables "    ".

Definition dropTableStatement (name : string) : string :=
  ("    this.schema.dropTableIfExists('" ++ name ++ "')")%string.

Definition alterTableStatement (name : string) (lines : list string) : string :=
  ("    this.schema.table('" ++ name ++ "', (table) => {" ++ Js.LF
     ++ Js.join Js.LF lines ++ Js.LF ++ "    })")%string.

(** *** The regular expression [/table\.\w+\('([^']+)'/]

    [line.match(re)] returns the first capture group of the leftmost match.
    Both repetitions are greedy and are followed by a character outside the
    repeated class, so at each start position the only candidate is the
    longest run. *)

Fixpoint stripPrefix (p s : string) : option string :=
  match p, s with
  | EmptyString, _ => Some s
  | String a p', String b s' => if Ascii.eqb a b then stripPrefix p' s' else None
  | String _ _, EmptyString => None
  end.

(** The longest prefix of characters satisfying [p], and the rest. *)
Fixpoint span (p : ascii -> bool) (s : string) : string * string :=
  match s with
  | EmptyString => (EmptyString, EmptyString)
  | String c r =>
      if p c then let (a, b) := span p r in (String c a, b)
      else (EmptyString, s)
  end.

Definition notQuote (c : ascii) : bool := negb (Ascii.eqb c "'").

(** A match of the expression starting at the first character of [s]. *)
Definition matchColumnHere (s : string) : option string :=
  match stripPrefix "table." s with
  | None => None
  | Some r =>
      let (w, r1) := span Js.isWord r in
      match w with
      | EmptyString => None
      | _ =>
          match stripPrefix "('" r1 with
          | None => None
          | Some r2 =>
              let (name, r3) := span notQuote r2 in
              match name, r3 with
              | String _ _, String _ _ => Some name
              | _, _ => None
              end
          end
      end
  end.

Fixpoint matchColumn (line : string) : option string :=
  match matchColumnHere line with
  | Some name => Some name
  | None =>
      match line with
      | EmptyString => None
      | String _ r => matchColumn r
      end
  end.

(** *** Incremental mode *)

Record Statements := {
  upStatements : list string;
  downStatements : list string;
  warnings : list string
}.

(** The [addColLines] of one existing table. *)
Definition addColumnLines
    (tables : BetterAuthDBSchema) (currentCols : list string) (fs : Fields)
    : list string :=
  flat_map
    (fun kf =>
       if String.eqb (fst kf) "id" then []
       else if Js.has currentCols (getColumnName (fst kf) (snd kf)) then []
       else [("      table." ++ buildColumnChain (fst kf) (snd kf) tables)%string])
    fs.

(** The [dropLines] computed from the [addColLines]. *)
Definition dropColumnLines (addColLines : list string) : list string :=
  flat_map
    (fun line =>
       match matchColumn line with
       | Some name => [("      table.dropColumn('" ++ name ++ "')")%string]
       | None => []
       end)
    addColLines.

Definition columnWarning (name existingCol : string) : list string :=
  [ ("    // WARNING: '" ++ name ++ "." ++ existingCol
       ++ "' is no longer in your better-auth config.")%string;
    "    // Remove it manually if desired:";
    ("    // this.schema.table('" ++ name ++ "', (table) => { table.dropColumn('"
       ++ existingCol ++ "') })")%string ].

(** The warnings of one existing table, for the columns of the catalog that
    no field declares. *)
Definition columnWarnings (name : string) (fs : Fields) (currentCols : list string)
    : list string :=
  flat_map
    (fun existingCol =>
       if String.eqb existingCol "id" then []
       else if existsb
                 (fun kf => String.eqb (getColumnName (fst kf) (snd kf)) existingCol)
                 fs
            then []
            else columnWarning name existingCol)
    currentCols.

Definition currentColumns
    (existingColumns : list (string * list string)) (name : string) : list string :=
  match Js.get existingColumns name with
  | Some s => s
  | None => []
  end.

(** One iteration of [for (const table of activeTables)]. *)
Definition reconcileTable
    (tables : BetterAuthDBSchema) (existingTables : list string)
    (existingColumns : list (string * list string))
    (acc : Statements) (table : Table) : Statements :=
  let name := modelName table in
  let fs := fields table in
  if negb (Js.has existingTables name) then
    {| upStatements := upStatements acc ++ [createTableStatement tables table];
       downStatements := dropTableStatement name :: downStatements acc;
       warnings := warnings acc |}
  else
    let currentCols := currentColumns existingColumns name in
    let addColLines := addColumnLines tables currentCols fs in
    let acc :=
      match addColLines with
      | [] => acc
      | _ =>
          let dropLines := dropColumnLines addColLines in
          {| upStatements := upStatements acc ++ [alterTableStatement name addColLines];
             downStatements :=
               match dropLines with
               | [] => downStatements acc
               | _ => downStatements acc ++ [alterTableStatement name dropLines]
               end;
             warnings := warnings acc |}
      end in
    {| upStatements := upStatements acc;
       downStatements := downStatements acc;
       warnings := warnings acc ++ columnWarnings name fs currentCols |}.

Definition tableWarning (existingTable : string) : list string :=
  [ ("    // WARNING: Table '" ++ existingTable
       ++ "' exists in DB but is no longer in your config.")%string;
    "    // Drop it manually if desired:";
    ("    // this.schema.dropTableIfExists('" ++ existingTable ++ "')")%string ].

(** [for (const existingTable of existingTables)] *)
Definition tableWarnings
    (existingTables desiredTableNames : list string) (active : list Table)
    : list string :=
  flat_map
    (fun existingTable =>
       if negb (Js.has desiredTableNames existingTable) then
         let wasOurs :=
           existsb (fun t => String.eqb (modelName t) existingTable) active in
         if wasOurs then tableWarning existingTable else []
       else [])
    existingTables.

Definition desiredTableNames (tables : BetterAuthDBSchema) : list string :=
  Js.newSet (map modelName (activeTables tables)).

(** The three arrays when the incremental branch reaches its final test. *)
Definition incremental (db : Database) (tables : BetterAuthDBSchema) : Statements :=
  let existingTables := queryExistingTables db in
  let desired := desiredTableNames tables in
  let existingColumns := queryExistingColumns db desired in
  let acc :=
    fold_left (reconcileTable tables existingTables existingColumns)
              (activeTables tables)
              {| upStatements := []; downStatements := []; warnings := [] |} in
  {| upStatements := upStatements acc;
     downStatements := downStatements acc;
     warnings := warnings acc
                 ++ tableWarnings existingTables desired (activeTables tables) |}.

(** *** Fresh mode *)

Definition isFresh (db : Database) : bool :=
  negb (Js.has (queryExistingTables db) "user").

Definition freshUpBlocks (tables : BetterAuthDBSchema) : list string :=
  map (createTableStatement tables) (activeTables tables).

Definition freshDownLines (tables : BetterAuthDBSchema) : list string :=
  map (fun t => dropTableStatement (modelName t)) (rev (activeTables tables)).

Definition noChangesCode : string :=
  ("// better-auth schema is already in sync with your database. No changes needed."
     ++ Js.LF)%string.

Definition noRollbackComment : string :=
  "    // No automatic rollback for incremental changes — run manually if needed.".

Definition incrementalUpBody (s : Statements) : string :=
  Js.join (Js.LF ++ Js.LF)%string
    (upStatements s
     ++ match warnings s with
        | [] => []
        | _ => EmptyString :: warnings s
        end).

Definition incrementalDownBody (s : Statements) : string :=
  match downStatements s with
  | [] => noRollbackComment
  | _ => Js.join (Js.LF ++ Js.LF)%string (downStatements s)
  end.

Definition generateLucidMigration
    (db : Database) (now : Date) (tables : BetterAuthDBSchema) (file : option string)
    : Artifact :=
  let timestamp := generateTimestamp now in
  let outputPath :=
    match file with
    | Some f => f
    | None => ("database/migrations/" ++ timestamp ++ "_better_auth_schema.ts")%string
    end in
  if isFresh db then
    {| code := wrapInBaseSchema
                 (Js.join (Js.LF ++ Js.LF)%string (freshUpBlocks tables))
                 (Js.join Js.LF (freshDownLines tables));
       path := outputPath;
       overwrite := false |}
  else
    let s := incremental db tables in
    match upStatements s, warnings s with
    | [], [] =>
        {| code := noChangesCode; path := outputPath; overwrite := false |}
    | _, _ =>
        {| code := wrapInBaseSchema (incrementalUpBody s) (incrementalDownBody s);
           path := outputPath;
           overwrite := false |}
    end.

(** ** The WHERE condition helper *)

Module Where.

(** A look-up [object[key]] in an object literal: an own property, a member
    inherited from [Object.prototype] (never nullish), or nothing. *)
Definition objectPrototypeMembers : list string :=
  [ "constructor"; "__proto__"; "hasOwnProperty"; "isPrototypeOf";
    "propertyIsEnumerable"; "toLocaleString"; "toString"; "valueOf";
    "__defineGetter__"; "__defineSetter__"; "__lookupGetter__";
    "__lookupSetter__" ].

(** The operator argument of [where]: a string, or the inherited member that
    [opMap[operator]] evaluates to for a name of [Object.prototype]. *)
Inductive SqlOperator :=
| Symbol (s : string)
| InheritedMember (name : string).

Definition opMap : list (string * string) :=
  [ ("eq", "="); ("ne", "!="); ("lt", "<"); ("lte", "<=");
    ("gt", ">"); ("gte", ">=") ].

(** [opMap[operator] ?? '='] *)
Definition sqlOp (operator : string) : SqlOperator :=
  match Js.get opMap operator with
  | Some s => Symbol s
  | None =>
      if Js.has objectPrototypeMembers operator then InheritedMember operator
      else Symbol "="
  end.

Section Conditions.
(** The values of conditions, with [Array.isArray] and the conversion to a
    string that a template literal applies. *)
Variable Value : Type.
Variable isArray : Value -> option (list Value).
Variable toText : Value -> string.

Record CleanedWhere := {
  field : string;
  value : Value;
  operator : string;
  connector : string
}.

(** The third argument of [where]: the value, or a [like] pattern. *)
Inductive Operand :=
| Plain (v : Value)
| Pattern (s : string).

(** A call on the query builder; the query is the list of the calls made on
    it so far. *)
Inductive Call :=
| where_ (f : string) (op : SqlOperator) (arg : Operand)
| orWhere (f : string) (op : SqlOperator) (arg : Operand)
| whereIn (f : string) (vs : list Value)
| orWhereIn (f : string) (vs : list Value)
| whereNotIn (f : string) (vs : list Value)
| orWhereNotIn (f : string) (vs : list Value).

(** [Array.isArray(value) ? value : [value]] *)
Definition asArray (v : Value) : list Value :=
  match isArray v with
  | Some l => l
  | None => [v]
  end.

(** The body of the [switch (operator)]. *)
Definition callOf (useOr : bool) (w : CleanedWhere) : Call :=
  if String.eqb (operator w) "in" then
    if useOr then orWhereIn (field w) (asArray (value w))
    else whereIn (field w) (asArray (value w))
  else if String.eqb (operator w) "not_in" then
    if useOr then orWhereNotIn (field w) (asArray (value w))
    else whereNotIn (field w) (asArray (value w))
  else if String.eqb (operator w) "contains" then
    if useOr
    then orWhere (field w) (Symbol "like") (Pattern ("%" ++ toText (value w) ++ "%"))
    else where_ (field w) (Symbol "like") (Pattern ("%" ++ toText (value w) ++ "%"))
  else if String.eqb (operator w) "starts_with" then
    if useOr
    then orWhere (field w) (Symbol "like") (Pattern (toText (value w) ++ "%"))
    else where_ (field w) (Symbol "like") (Pattern (toText (value w) ++ "%"))
  else if String.eqb (operator w) "ends_with" then
    if useOr
    then orWhere (field w) (Symbol "like") (Pattern ("%" ++ toText (value w)))
    else where_ (field w) (Symbol "like") (Pattern ("%" ++ toText (value w)))
  else
    if useOr then orWhere (field w) (sqlOp (operator w)) (Plain (value w))
    else where_ (field w) (sqlOp (operator w)) (Plain (value w)).

(** The loop [for (const [i, condition] of where.entries())], from index [i]. *)
Fixpoint applyFrom (i : nat) (query : list Call) (conditions : list CleanedWhere)
    : list Call :=
  match conditions with
  | [] => query
  | w :: r =>
      let useOr := (0 <? i)%nat && String.eqb (connector w) "OR" in
      applyFrom (S i) (query ++ [callOf useOr w]) r
  end.

Definition applyWhereConditions (query : list Call) (conditions : list CleanedWhere)
    : list Call :=
  applyFrom 0 query conditions.

(** The calls that join their condition with OR. *)
Definition isOrCall (c : Call) : bool :=
  match c with
  | orWhere _ _ _ | orWhereIn _ _ | orWhereNotIn _ _ => true
  | _ => false
  end.

Definition callField (c : Call) : string :=
  match c with
  | where_ f _ _ | orWhere f _ _ | whereIn f _ | orWhereIn f _
  | whereNotIn f _ | orWhereNotIn f _ => f
  end.

Definition knownOperators : list string :=
  [ "in"; "not_in"; "contains"; "starts_with"; "ends_with";
    "eq"; "ne"; "lt"; "lte"; "gt"; "gte" ].

Definition withOperator (op : string) (w : CleanedWhere) : CleanedWhere :=
  {| field := field w; value := value w; operator := op;
     connector := connector w |}.

Definition withConnector (c : string) (w : CleanedWhere) : CleanedWhere :=
  {| field := field w; value := value w; operator := operator w;
     connector := c |}.
End Conditions.

End Where.

(** ** The configure hook *)

(** The [fileName] that [configure] gives to the published migration stub;
    the time stamp is computed as in [generateTimestamp]. *)
Definition configureFileName (now : Date) : string :=
  let timestamp :=
    Js.join EmptyString
      [ Js.numberToString (getFullYear now);
        Js.pad (getMonth now + 1);
        Js.pad (getDate now);
        Js.pad (getHours now);
        Js.pad (getMinutes now);
        Js.pad (getSeconds now) ] in
  (timestamp ++ "_create_better_auth_tables")%string.

(** ** Definitions used to state the properties *)


(** The tables of the schema map, in declaration order. *)
Definition declaredTables (tables : BetterAuthDBSchema) : list Table :=
  map snd tables.

Definition orderLe (a b : Table) : Prop := (tableOrder a <= tableOrder b)%Z.

Definition hasOrder (k : Z) (t : Table) : bool := (tableOrder t =? k)%Z.

(** The statements and warnings that one iteration of the incremental loop
    contributes, for a fixed catalog. *)
Section Contributions.
Variable tables : BetterAuthDBSchema.
Variable existingTables : list string.
Variable existingColumns : list (string * list string).

Definition isNewTable (t : Table) : bool :=
  negb (Js.has existingTables (modelName t)).

Definition addLinesOf (t : Table) : list string :=
  addColumnLines tables (currentColumns existingColumns (modelName t)) (fields t).

Definition upOf (t : Table) : list string :=
  if isNewTable t then [createTableStatement tables t]
  else match addLinesOf t with
       | [] => []
       | l => [alterTableStatement (modelName t) l]
       end.

Definition createdDropOf (t : Table) : list string :=
  if isNewTable t then [dropTableStatement (modelName t)] else [].

Definition alterDownOf (t : Table) : list string :=
  if isNewTable t then []
  else match addLinesOf t with
       | [] => []
       | l => match dropColumnLines l with
              | [] => []
              | d => [alterTableStatement (modelName t) d]
              end
       end.

Definition warningsOf (t : Table) : list string :=
  if isNewTable t then []
  else columnWarnings (modelName t) (fields t)
         (currentColumns existingColumns (modelName t)).
End Contributions.

(** The catalog columns the incremental branch knows for a table name. *)
Definition catalogColumns (db : Database) (tables : BetterAuthDBSchema)
    (name : string) : list string :=
  currentColumns (queryExistingColumns db (desiredTableNames tables)) name.

(** The non-id fields of a table whose resolved column is not in the catalog. *)
Definition missingFields (currentCols : list string) (fs : Fields) : Fields :=
  filter (fun kf => negb (String.eqb (fst kf) "id")
                    && negb (Js.has currentCols (getColumnName (fst kf) (snd kf))))
         fs.

Definition addColumnLine (tables : BetterAuthDBSchema)
    (kf : string * DBFieldAttribute) : string :=
  ("      table." ++ buildColumnChain (fst kf) (snd kf) tables)%string.

Definition dropColumnLine (col : string) : string :=
  ("      table.dropColumn('" ++ col ++ "')")%string.

Fixpoint allChars (p : ascii -> bool) (s : string) : bool :=
  match s with
  | EmptyString => true
  | String c r => p c && allChars p r
  end.

(** A column name that is not empty and holds no single quote. *)
Definition plainColumnName (col : string) : bool :=
  negb (String.eqb col EmptyString) && allChars notQuote col.

(** The statement sequences of the mode the generator selects. *)
Definition upSequence (db : Database) (tables : BetterAuthDBSchema) : list string :=
  if isFresh db then freshUpBlocks tables
  else upStatements (incremental db tables).

Definition downSequence (db : Database) (tables : BetterAuthDBSchema) : list string :=
  if isFresh db then freshDownLines tables
  else downStatements (incremental db tables).








(** Catalog and schema agree: the database is provisioned, every active table
    exists, every non-id field has its column, and every catalog column other
    than [id] of an active table is the column of a declared field. *)
Definition InSync (db : Database) (tables : BetterAuthDBSchema) : Prop :=
  isFresh db = false /\
  Forall
    (fun t =>
       Js.has (queryExistingTables db) (modelName t) = true /\
       missingFields (catalogColumns db tables (modelName t)) (fields t) = [] /\
       Forall
         (fun col =>
            col = "id" \/
            exists kf, In kf (fields t) /\ getColumnName (fst kf) (snd kf) = col)
         (catalogColumns db tables (modelName t)))
    (activeTables tables).

(** The resolution of a foreign-key target: the only use that
    [buildColumnChain] makes of the schema map. *)
Definition resolveModelName (tables : BetterAuthDBSchema) (key : string)
    : option string :=
  match Js.get tables key with
  | Some t => Some (modelName t)
  | None => None
  end.



Definition isDigit (c : ascii) : bool :=
  let n := N_of_ascii c in ((48 <=? n) && (n <=? 57))%N.

(** The first [n] characters of a string, and the rest. *)
Fixpoint splitAt (n : nat) (s : string) : string * string :=
  match n, s with
  | S n', String c r => let (a, b) := splitAt n' r in (String c a, b)
  | _, _ => (EmptyString, s)
  end.

Definition parseNumber (s : string) : option N :=
  match NilEmpty.uint_of_string s with
  | Some d => Some (N.of_uint d)
  | None => None
  end.

(** Reads a [YYYYMMDDHHmmss] time stamp back into the getters of a date. *)
Definition readTimestamp (ts : string) : option Date :=
  let (y, r) := splitAt 4 ts in
  let (mo, r) := splitAt 2 r in
  let (d, r) := splitAt 2 r in
  let (h, r) := splitAt 2 r in
  let (mi, s) := splitAt 2 r in
  match parseNumber y, parseNumber mo, parseNumber d,
        parseNumber h, parseNumber mi, parseNumber s with
  | Some y, Some mo, Some d, Some h, Some mi, Some s =>
      Some {| getFullYear := y; getMonth := mo - 1; getDate := d;
              getHours := h; getMinutes := mi; getSeconds := s |}
  | _, _, _, _, _, _ => None
  end.

(** The ranges of the getters of a date with a four-digit year. *)
Definition fourDigitYearDate (d : Date) : Prop :=
  (1000 <= getFullYear d < 10000 /\ getMonth d < 12 /\ getDate d < 32
   /\ getHours d < 24 /\ getMinutes d < 60 /\ getSeconds d < 60)%N.

(** The checks that a component prints as two, or four, digits that parse
    back to it. *)
Definition twoDigits (n : N) : bool :=
  Nat.eqb (String.length (Js.pad n)) 2
  && allChars isDigit (Js.pad n)
  && match parseNumber (Js.pad n) with
     | Some m => N.eqb m n
     | None => false
     end.

Definition fourDigits (n : N) : bool :=
  Nat.eqb (String.length (Js.numberToString n)) 4
  && allChars isDigit (Js.numberToString n)
  && match parseNumber (Js.numberToString n) with
     | Some m => N.eqb m n
     | None => false
     end.


(** A column of the catalog that no field of the table declares. *)
Definition staleColumn (fs : Fields) (col : string) : Prop :=
  col <> "id"
  /\ forall kf, In kf fs -> getColumnName (fst kf) (snd kf) <> col.

(** ** Sample schemas and catalogs *)

Module Sample.

Definition attribute (ty : string) : DBFieldAttribute :=
  {| type := ty; required := Some true; unique := false; sortable := false;
     bigint := false; index := false; fieldName := None; references := None |}.

Definition optional (f : DBFieldAttribute) : DBFieldAttribute :=
  {| type := type f; required := Some false; unique := unique f;
     sortable := sortable f; bigint := bigint f; index := index f;
     fieldName := fieldName f; references := references f |}.

Definition named (n : string) (f : DBFieldAttribute) : DBFieldAttribute :=
  {| type := type f; required := required f; unique := unique f;
     sortable := sortable f; bigint := bigint f; index := index f;
     fieldName := Some n; references := references f |}.

Definition indexed (f : DBFieldAttribute) : DBFieldAttribute :=
  {| type := type f; required := required f; unique := unique f;
     sortable := sortable f; bigint := bigint f; index := true;
     fieldName := fieldName f; references := references f |}.

Definition referencing (m fld : string) (a : option string)
    (f : DBFieldAttribute) : DBFieldAttribute :=
  {| type := type f; required := required f; unique := unique f;
     sortable := sortable f; bigint := bigint f; index := index f;
     fieldName := fieldName f;
     references := Some {| model := m; field := fld; onDelete := a |} |}.

Definition sortableString (uniq : bool) : DBFieldAttribute :=
  {| type := "string"; required := Some true; unique := uniq; sortable := true;
     bigint := false; index := false; fieldName := None; references := None |}.

Definition table (name : string) (o : Z) (fs : Fields) : Table :=
  {| modelName := name; order := Some o; disableMigrations := false; fields := fs |}.

Definition user : Table :=
  table "user" 1
    [ ("id", attribute "string");
      ("name", sortableString false);
      ("email", sortableString true);
      ("emailVerified", attribute "boolean");
      ("image", optional (attribute "string"));
      ("createdAt", attribute "date");
      ("updatedAt", attribute "date") ].

Definition session : Table :=
  table "session" 2
    [ ("id", attribute "string");
      ("userId", referencing "user" "id" (Some "cascade") (attribute "string"));
      ("token", sortableString true);
      ("expiresAt", attribute "date");
      ("createdAt", attribute "date");
      ("updatedAt", attribute "date") ].

Definition account : Table := table "account" 3 [("id", attribute "string")].

Definition verification : Table :=
  table "verification" 4 [("id", attribute "string")].

(** The schema of the four core tables. *)
Definition CORE_SCHEMA : BetterAuthDBSchema :=
  [ ("user", user); ("session", session); ("account", account);
    ("verification", verification) ].

Definition baseTable (name : string) : TableRow :=
  {| tables_table_schema := "public"; tables_table_name := name;
     table_type := "BASE TABLE" |}.

Definition columnsOf (name : string) (cols : list string) : list ColumnRow :=
  map (fun c => {| columns_table_schema := "public";
                   columns_table_name := name; column_name := c |}) cols.

Definition emptyDb : Database :=
  {| information_schema_tables := []; information_schema_columns := [] |}.

(** A database holding the four core tables with all their columns. *)
Definition coreDb : Database :=
  {| information_schema_tables :=
       map baseTable ["user"; "session"; "account"; "verification"];
     information_schema_columns :=
       columnsOf "user"
         ["id"; "name"; "email"; "email_verified"; "image"; "created_at";
          "updated_at"]
       ++ columnsOf "session"
            ["id"; "user_id"; "token"; "expires_at"; "created_at"; "updated_at"]
       ++ columnsOf "account" ["id"]
       ++ columnsOf "verification" ["id"] |}.

Definition clock : Date :=
  {| getFullYear := 2024; getMonth := 0; getDate := 5;
     getHours := 13; getMinutes := 4; getSeconds := 9 |}.

Definition laterClock : Date :=
  {| getFullYear := 2024; getMonth := 0; getDate := 5;
     getHours := 13; getMinutes := 5; getSeconds := 30 |}.



(** An active table whose foreign key targets a table excluded from
    migrations. *)
Definition legacy : Table :=
  {| modelName := "legacy_accounts"; order := Some 10%Z;
     disableMigrations := true; fields := [("id", attribute "string")] |}.

Definition schemaWithDisabledTarget : BetterAuthDBSchema :=
  [ ("user", table "user" 1 [("id", attribute "string")]);
    ("profile",
      table "profile" 2
        [ ("id", attribute "string");
          ("legacyId", referencing "legacy" "id" None (attribute "string")) ]);
    ("legacy", legacy) ].

(** A catalog with a table that the schema no longer declares. *)
Definition schemaUserOnly : BetterAuthDBSchema :=
  [ ("user", table "user" 1 [("id", attribute "string")]) ].

Definition dbWithRemovedTable : Database :=
  {| information_schema_tables := map baseTable ["user"; "two_factor"];
     information_schema_columns :=
       columnsOf "user" ["id"] ++ columnsOf "two_factor" ["id"; "secret"] |}.

Definition dbUserIdOnly : Database :=
  {| information_schema_tables := [baseTable "user"];
     information_schema_columns := columnsOf "user" ["id"] |}.

(** A new field whose column name override is the empty string. *)
Definition userWithEmptyColumn : Table :=
  table "user" 1
    [ ("id", attribute "string");
      ("nickname", named EmptyString (attribute "string")) ].

Definition schemaEmptyColumn : BetterAuthDBSchema :=
  [ ("user", userWithEmptyColumn) ].

(** A new plain field on an existing table. *)
Definition userWithTwoFactor : Table :=
  table "user" 1
    [ ("id", attribute "string");
      ("twoFactorEnabled", optional (attribute "boolean"));
      ("lastLogin", attribute "date") ].

Definition schemaTwoFactor : BetterAuthDBSchema :=
  [ ("user", userWithTwoFactor) ].





Definition everythingDisabled : BetterAuthDBSchema :=
  [ ("legacy", legacy) ].

(** Conditions on string values, none of which is an array. *)
Definition notAnArray (v : string) : option (list string) := None.

Definition asText (v : string) : string := v.

Definition condition (f op v c : string) : Where.CleanedWhere string :=
  {| Where.field := f; Where.value := v; Where.operator := op;
     Where.connector := c |}.

Definition applyToStrings :=
  Where.applyWhereConditions string notAnArray asText.

(** A provisioned database, no table of which the schema declares. *)
Definition schemaAccountOnly : BetterAuthDBSchema :=
  [ ("verification", verification); ("account", account) ].

(** A catalog without the [user] table that holds another table. *)
Definition dbSessionOnly : Database :=
  {| information_schema_tables := [baseTable "session"];
     information_schema_columns := columnsOf "session" ["id"] |}.

(** The schema with a disabled target, the disabled table being declared
    with another order and other fields. *)
Definition schemaWithOtherDisabledTarget : BetterAuthDBSchema :=
  [ ("user", table "user" 1 [("id", attribute "string")]);
    ("profile",
      table "profile" 2
        [ ("id", attribute "string");
          ("legacyId", referencing "legacy" "id" None (attribute "string")) ]);
    ("legacy",
      {| modelName := "legacy_accounts"; order := None;
         disableMigrations := true;
         fields := [("id", attribute "number"); ("name", attribute "string")] |}) ].

(** The core schema with the field and the table of the two-factor plugin. *)
Definition twoFactor : Table :=
  table "twoFactor" 5
    [ ("id", attribute "string");
      ("userId", referencing "user" "id" (Some "cascade") (attribute "string"));
      ("secret", attribute "string");
      ("backupCodes", attribute "string") ].

Definition schemaWithPlugin : BetterAuthDBSchema :=
  [ ("user",
      table "user" 1
        (fields user ++ [("twoFactorEnabled", optional (attribute "boolean"))]));
    ("session", session); ("account", account);
    ("verification", verification); ("twoFactor", twoFactor) ].

(** Tables of equal order, two of them without an [order]. *)
Definition unordered (name : string) : Table :=
  {| modelName := name; order := None; disableMigrations := false;
     fields := [("id", attribute "string")] |}.

Definition schemaWithTies : BetterAuthDBSchema :=
  [ ("b", unordered "b");
    ("late", table "late" 1000 [("id", attribute "string")]);
    ("a", table "a" 1 [("id", attribute "string")]);
    ("c", unordered "c");
    ("d", table "d" 1 [("id", attribute "string")]) ].

(** The core database with a column that the schema does not declare. *)
Definition coreDbWithOldColumn : Database :=
  {| information_schema_tables := information_schema_tables coreDb;
     information_schema_columns :=
       information_schema_columns coreDb ++ columnsOf "user" ["old_column"] |}.

End Sample.

(** ** Properties of the primitives *)

Section SortFacts.
Context {A : Type} (key : A -> Z).

Let compare (a b : A) : Z := (key a - key b)%Z.

Lemma insertSorted_perm (x : A) (l : list A) :
  Permutation (Js.insertSorted compare x l) (x :: l).
Proof.
  induction l as [|y r IH]; simpl.
  - apply Permutation_refl.
  - destruct (compare x y <=? 0)%Z.
    + apply Permutation_refl.
    + eapply perm_trans; [apply perm_skip, IH | apply perm_swap].
Qed.

Lemma sort_perm (l : list A) : Permutation (Js.sort compare l) l.
Proof.
  induction l as [|x r IH]; simpl.
  - constructor.
  - eapply perm_trans; [apply insertSorted_perm | apply perm_skip, IH].
Qed.

Lemma insertSorted_sorted (x : A) (l : list A) :
  StronglySorted (fun a b => (key a <= key b)%Z) l ->
  StronglySorted (fun a b => (key a <= key b)%Z) (Js.insertSorted compare x l).
Proof.
  induction 1 as [|y r Hr IH Hy]; simpl.
  - repeat constructor.
  - destruct (compare x y <=? 0)%Z eqn:E; unfold compare in E.
    + apply Z.leb_le in E.
      constructor; [constructor; assumption|].
      constructor; [lia|].
      eapply Forall_impl; [|exact Hy]. simpl. intros; lia.
    + apply Z.leb_gt in E.
      constructor; [exact IH|].
      eapply Permutation_Forall;
        [apply Permutation_sym, insertSorted_perm|].
      constructor; [lia | exact Hy].
Qed.

Lemma sort_sorted (l : list A) :
  StronglySorted (fun a b => (key a <= key b)%Z) (Js.sort compare l).
Proof.
  induction l as [|x r IH]; simpl.
  - constructor.
  - apply insertSorted_sorted, IH.
Qed.

(** Stability: the elements of any one key keep their relative order. *)
Lemma insertSorted_stable (k : Z) (x : A) (l : list A) :
  StronglySorted (fun a b => (key a <= key b)%Z) l ->
  filter (fun a => (key a =? k)%Z) (Js.insertSorted compare x l)
  = filter (fun a => (key a =? k)%Z) (x :: l).
Proof.
  induction 1 as [|y r Hr IH Hy]; [reflexivity|].
  simpl Js.insertSorted.
  destruct (compare x y <=? 0)%Z eqn:E; [reflexivity|].
  unfold compare in E; apply Z.leb_gt in E.
  cbn [filter]. rewrite IH. cbn [filter].
  destruct (key x =? k)%Z eqn:Ex; destruct (key y =? k)%Z eqn:Ey;
    try reflexivity.
  apply Z.eqb_eq in Ex, Ey. lia.
Qed.

Lemma sort_stable (k : Z) (l : list A) :
  filter (fun a => (key a =? k)%Z) (Js.sort compare l)
  = filter (fun a => (key a =? k)%Z) l.
Proof.
  induction l as [|x r IH]; [reflexivity|].
  simpl Js.sort. rewrite insertSorted_stable by apply sort_sorted.
  simpl. rewrite IH. reflexivity.
Qed.
End SortFacts.

Lemma has_app (s1 s2 : list string) (x : string) :
  Js.has (s1 ++ s2) x = Js.has s1 x || Js.has s2 x.
Proof. unfold Js.has. apply existsb_app. Qed.

Lemma has_In (s : list string) (x : string) : Js.has s x = true <-> In x s.
Proof.
  unfold Js.has. rewrite existsb_exists. split.
  - intros [y [Hy E]]. apply String.eqb_eq in E. subst. exact Hy.
  - intros H. exists x. split; [exact H | apply String.eqb_refl].
Qed.

Lemma has_fold_setAdd (l s : list string) (x : string) :
  Js.has (fold_left Js.setAdd l s) x = Js.has s x || Js.has l x.
Proof.
  revert s. induction l as [|y r IH]; intros s; simpl.
  - rewrite orb_false_r. reflexivity.
  - rewrite IH. unfold Js.setAdd.
    destruct (Js.has s y) eqn:E.
    + destruct (String.eqb x y) eqn:Exy.
      * apply String.eqb_eq in Exy. subst. rewrite E. reflexivity.
      * reflexivity.
    + rewrite has_app. simpl. rewrite orb_false_r, orb_assoc. reflexivity.
  Qed.

Lemma has_newSet (l : list string) (x : string) :
  Js.has (Js.newSet l) x = Js.has l x.
Proof. unfold Js.newSet. rewrite has_fold_setAdd. reflexivity. Qed.

Lemma activeTables_perm (tables : BetterAuthDBSchema) :
  Permutation (activeTables tables)
    (filter (fun t => negb (disableMigrations t)) (declaredTables tables)).
Proof. unfold activeTables. apply (sort_perm tableOrder). Qed.

Lemma activeTables_In (tables : BetterAuthDBSchema) (t : Table) :
  In t (activeTables tables)
  <-> In t (declaredTables tables) /\ disableMigrations t = false.
Proof.
  split.
  - intros H. apply (Permutation_in _ (activeTables_perm tables)) in H.
    apply filter_In in H. destruct H as [H1 H2].
    split; [exact H1 | now apply negb_true_iff in H2].
  - intros [H1 H2].
    apply (Permutation_in _ (Permutation_sym (activeTables_perm tables))).
    apply filter_In. split; [exact H1 | now rewrite H2].
Qed.


Lemma filter_none {A : Type} (p : A -> bool) (l : list A) :
  Forall (fun x => p x = false) l -> filter p l = [].
Proof.
  induction 1 as [|x r Hx _ IH]; simpl; [reflexivity|].
  rewrite Hx, IH. reflexivity.
Qed.

Lemma wrapInBaseSchema_not_noChanges (upBody downBody : string) :
  wrapInBaseSchema upBody downBody <> noChangesCode.
Proof. unfold wrapInBaseSchema, noChangesCode. simpl. discriminate. Qed.


(** ** The catalog reader *)

Lemma In_setAdd (s : list string) (c x : string) :
  In x (Js.setAdd s c) <-> In x s \/ x = c.
Proof.
  unfold Js.setAdd. destruct (Js.has s c) eqn:E.
  - apply has_In in E. split; [now left | intros [H| ->]; assumption].
  - rewrite in_app_iff. simpl. split.
    + intros [H|[H|[]]]; [now left | now right].
    + intros [H|H]; [now left | right; left; now symmetry].
Qed.

Lemma In_newSet (l : list string) (x : string) : In x (Js.newSet l) <-> In x l.
Proof. rewrite <- !has_In. rewrite has_newSet. reflexivity. Qed.

Lemma currentColumns_addColumn
    (result : list (string * list string)) (t c name : string) :
  currentColumns (addColumn result t c) name
  = if String.eqb name t then Js.setAdd (currentColumns result name) c
    else currentColumns result name.
Proof.
  unfold currentColumns.
  induction result as [|[k s] r IH]; simpl.
  - destruct (String.eqb name t); reflexivity.
  - destruct (String.eqb t k) eqn:Etk; simpl.
    + apply String.eqb_eq in Etk. subst k.
      destruct (String.eqb name t); reflexivity.
    + destruct (String.eqb name k) eqn:Enk; [|exact IH].
      apply String.eqb_eq in Enk. subst k.
      rewrite String.eqb_sym, Etk. reflexivity.
Qed.

Lemma currentColumns_fold
    (rows : list ColumnRow) (result : list (string * list string))
    (name c : string) :
  In c (currentColumns
          (fold_left
             (fun result row =>
                addColumn result (columns_table_name row) (column_name row))
             rows result)
          name)
  <-> In c (currentColumns result name)
      \/ exists row, In row rows /\ columns_table_name row = name
                     /\ column_name row = c.
Proof.
  revert result. induction rows as [|row r IH]; intros result; simpl.
  - split; [now left | intros [H|[row [[] _]]]; exact H].
  - rewrite IH, currentColumns_addColumn.
    destruct (String.eqb name (columns_table_name row)) eqn:E.
    + apply String.eqb_eq in E. rewrite In_setAdd. split.
      * intros [[H|H]|[row' [H1 H2]]].
        -- now left.
        -- right. exists row. repeat split; [now left | now symmetry | now symmetry].
        -- right. exists row'. split; [now right | exact H2].
      * intros [H|[row' [[H1|H1] [H2 H3]]]].
        -- left. now left.
        -- subst row'. left. right. now symmetry.
        -- right. exists row'. repeat split; assumption.
    + apply String.eqb_neq in E. split.
      * intros [H|[row' [H1 H2]]]; [now left|].
        right. exists row'. split; [now right | exact H2].
      * intros [H|[row' [[H1|H1] [H2 H3]]]].
        -- now left.
        -- subst row'. contradiction E. now symmetry.
        -- right. exists row'. repeat split; assumption.
Qed.

(** The columns known for a table name are the columns that
    [information_schema.columns] lists for it in the schema [public],
    provided the name is one of the desired table names. *)
Lemma catalogColumns_spec
    (db : Database) (tables : BetterAuthDBSchema) (name c : string) :
  In c (catalogColumns db tables name)
  <-> In name (desiredTableNames tables)
      /\ exists row,
          In row (information_schema_columns db)
          /\ columns_table_schema row = "public"
          /\ columns_table_name row = name
          /\ column_name row = c.
Proof.
  unfold catalogColumns, queryExistingColumns.
  destruct (desiredTableNames tables) as [|n ns] eqn:Ed.
  - simpl. split; [intros [] | intros [[] _]].
  - rewrite currentColumns_fold. simpl currentColumns. split.
    + intros [[]|[row [Hin [Hn Hc]]]].
      apply filter_In in Hin. destruct Hin as [Hin Hf].
      apply andb_true_iff in Hf. destruct Hf as [Hs Hh].
      apply String.eqb_eq in Hs. apply has_In in Hh. rewrite Hn in Hh.
      split; [exact Hh|]. exists row. repeat split; assumption.
    + intros [Hd [row [Hin [Hs [Hn Hc]]]]]. right. exists row.
      split; [|split; assumption].
      apply filter_In. split; [exact Hin|].
      apply andb_true_iff. split; [now apply String.eqb_eq|].
      apply has_In. rewrite Hn. exact Hd.
Qed.

(** The existing tables are the base tables that [information_schema.tables]
    lists in the schema [public]. *)
Lemma queryExistingTables_spec (db : Database) (name : string) :
  In name (queryExistingTables db)
  <-> exists row,
        In row (information_schema_tables db)
        /\ tables_table_schema row = "public"
        /\ table_type row = "BASE TABLE"
        /\ tables_table_name row = name.
Proof.
  unfold queryExistingTables. rewrite In_newSet, in_map_iff. split.
  - intros [row [Hn Hin]]. apply filter_In in Hin. destruct Hin as [Hin Hf].
    apply andb_true_iff in Hf. destruct Hf as [Hs Ht].
    apply String.eqb_eq in Hs, Ht. exists row. repeat split; assumption.
  - intros [row [Hin [Hs [Ht Hn]]]]. exists row. split; [exact Hn|].
    apply filter_In. split; [exact Hin|].
    apply andb_true_iff. split; now apply String.eqb_eq.
Qed.

(** The desired table names are the names of the active tables. *)
Lemma desiredTableNames_spec (tables : BetterAuthDBSchema) (name : string) :
  In name (desiredTableNames tables)
  <-> exists t, In t (activeTables tables) /\ modelName t = name.
Proof.
  unfold desiredTableNames. rewrite In_newSet, in_map_iff.
  split; intros [t [H1 H2]]; exists t; split; assumption.
Qed.

(** ** Column names and column chains *)



(** The chain that the documentation of [buildColumnChain] gives as example. *)
Example buildColumnChain_userId :
  buildColumnChain "userId"
    (Sample.referencing "user" "id" (Some "cascade") (Sample.attribute "string"))
    Sample.CORE_SCHEMA
  = "text('user_id').notNullable().references('id').inTable('user').onDelete('CASCADE')".
Proof. reflexivity. Qed.


(** ** Fresh mode *)

Lemma code_fresh (db : Database) (now : Date) (tables : BetterAuthDBSchema)
    (file : option string) :
  isFresh db = true ->
  code (generateLucidMigration db now tables file)
  = wrapInBaseSchema
      (Js.join (Js.LF ++ Js.LF)%string (freshUpBlocks tables))
      (Js.join Js.LF (freshDownLines tables)).
Proof. intros H. unfold generateLucidMigration. rewrite H. reflexivity. Qed.

Lemma activeTables_all_disabled (tables : BetterAuthDBSchema) :
  Forall (fun kt => disableMigrations (snd kt) = true) tables ->
  activeTables tables = [].
Proof.
  intros H. unfold activeTables. rewrite filter_none; [reflexivity|].
  apply Forall_map. eapply Forall_impl; [|exact H].
  simpl. intros kt E. rewrite E. reflexivity.
Qed.




(** C10. When the catalog has no [user] table the result is the document
    wrapped by [wrapInBaseSchema], never the no-op comment; with no active
    table (for instance every table excluded from migrations) its up and down
    bodies are empty.  The no-op comment is returned only in provisioned
    mode. *)
Theorem noop_only_when_provisioned
    (db : Database) (now : Date) (tables : BetterAuthDBSchema)
    (file : option string) :
  (isFresh db = true ->
   code (generateLucidMigration db now tables file)
   = wrapInBaseSchema
       (Js.join (Js.LF ++ Js.LF)%string (freshUpBlocks tables))
       (Js.join Js.LF (freshDownLines tables))
   /\ code (generateLucidMigration db now tables file) <> noChangesCode
   /\ (activeTables tables = [] ->
       code (generateLucidMigration db now tables file)
       = wrapInBaseSchema EmptyString EmptyString)
   /\ (Forall (fun kt => disableMigrations (snd kt) = true) tables ->
       code (generateLucidMigration db now tables file)
       = wrapInBaseSchema EmptyString EmptyString))
  /\ (code (generateLucidMigration db now tables file) = noChangesCode ->
      isFresh db = false).
Proof.
  assert (Hempty : activeTables tables = [] ->
                   isFresh db = true ->
                   code (generateLucidMigration db now tables file)
                   = wrapInBaseSchema EmptyString EmptyString).
  { intros Ha Hf. rewrite code_fresh by exact Hf.
    unfold freshUpBlocks, freshDownLines. rewrite Ha. reflexivity. }
  split.
  - intros Hf. split; [apply code_fresh, Hf|]. split; [|split].
    + rewrite code_fresh by exact Hf. apply wrapInBaseSchema_not_noChanges.
    + intros Ha. apply Hempty; assumption.
    + intros Hd. apply Hempty; [apply activeTables_all_disabled, Hd | exact Hf].
  - intros Hc. destruct (isFresh db) eqn:Hf; [|reflexivity].
    rewrite code_fresh in Hc by exact Hf.
    now apply wrapInBaseSchema_not_noChanges in Hc.
Qed.

Lemma noop_only_when_provisioned_witness :
  (code (generateLucidMigration Sample.emptyDb Sample.clock [] None)
   = wrapInBaseSchema EmptyString EmptyString
   /\ code (generateLucidMigration Sample.emptyDb Sample.clock
              Sample.everythingDisabled None)
      = wrapInBaseSchema EmptyString EmptyString
   /\ code (generateLucidMigration Sample.emptyDb Sample.clock
              Sample.everythingDisabled None) <> noChangesCode)
  /\ (code (generateLucidMigration Sample.coreDb Sample.clock
              Sample.CORE_SCHEMA None) = noChangesCode
      /\ isFresh Sample.coreDb = false).
Proof.
  split.
  - destruct (proj1 (noop_only_when_provisioned Sample.emptyDb Sample.clock
                       [] None) eq_refl) as [_ [_ [Ha _]]].
    destruct (proj1 (noop_only_when_provisioned Sample.emptyDb Sample.clock
                       Sample.everythingDisabled None) eq_refl)
      as [_ [Hn [_ Hd]]].
    split; [apply Ha; reflexivity|].
    split; [apply Hd; repeat constructor | exact Hn].
  - split; [reflexivity|].
    apply (proj2 (noop_only_when_provisioned Sample.coreDb Sample.clock
                    Sample.CORE_SCHEMA None)).
    reflexivity.
Defined.

(** ** Incremental mode: the loop in closed form *)

Lemma reconcileTable_step
    (tables : BetterAuthDBSchema) (existingTables : list string)
    (existingColumns : list (string * list string))
    (acc : Statements) (t : Table) :
  reconcileTable tables existingTables existingColumns acc t
  = {| upStatements :=
         upStatements acc ++ upOf tables existingTables existingColumns t;
       downStatements :=
         createdDropOf existingTables t
         ++ downStatements acc
         ++ alterDownOf tables existingTables existingColumns t;
       warnings :=
         warnings acc ++ warningsOf existingTables existingColumns t |}.
Proof.
  unfold reconcileTable, upOf, createdDropOf, alterDownOf, warningsOf,
    isNewTable, addLinesOf.
  destruct (negb (Js.has existingTables (modelName t))).
  - simpl. rewrite !app_nil_r. reflexivity.
  - cbv zeta. destruct (addColumnLines tables
                (currentColumns existingColumns (modelName t)) (fields t))
      as [|line lines].
    + simpl. rewrite !app_nil_r. reflexivity.
    + destruct (dropColumnLines (line :: lines)); cbn [app];
        rewrite ?app_nil_r; reflexivity.
Qed.

Lemma createdDropOf_rev (existingTables : list string) (t : Table) :
  rev (createdDropOf existingTables t) = createdDropOf existingTables t.
Proof. unfold createdDropOf. destruct (isNewTable existingTables t); reflexivity. Qed.

Lemma fold_reconcileTable
    (tables : BetterAuthDBSchema) (existingTables : list string)
    (existingColumns : list (string * list string))
    (l : list Table) (acc : Statements) :
  fold_left (reconcileTable tables existingTables existingColumns) l acc
  = {| upStatements :=
         upStatements acc
         ++ flat_map (upOf tables existingTables existingColumns) l;
       downStatements :=
         rev (flat_map (createdDropOf existingTables) l)
         ++ downStatements acc
         ++ flat_map (alterDownOf tables existingTables existingColumns) l;
       warnings :=
         warnings acc
         ++ flat_map (warningsOf existingTables existingColumns) l |}.
Proof.
  revert acc. induction l as [|t r IH]; intros acc.
  - simpl. rewrite !app_nil_r. destruct acc; reflexivity.
  - simpl fold_left. rewrite IH, reconcileTable_step. simpl.
    rewrite rev_app_distr, createdDropOf_rev.
    rewrite <- !app_assoc. reflexivity.
Qed.

(** The test [wasOurs] can only succeed for a name that [desiredTableNames]
    holds, and the loop reaches it only for the other names. *)
Lemma tableWarnings_nil (existingTables : list string) (active : list Table) :
  tableWarnings existingTables (Js.newSet (map modelName active)) active = [].
Proof.
  unfold tableWarnings.
  induction existingTables as [|e r IH]; [reflexivity|].
  simpl. rewrite IH, app_nil_r.
  destruct (Js.has (Js.newSet (map modelName active)) e) eqn:Hd; [reflexivity|].
  simpl.
  destruct (existsb (fun t => String.eqb (modelName t) e) active) eqn:Hw;
    [|reflexivity].
  apply existsb_exists in Hw. destruct Hw as [t [Ht Et]].
  apply String.eqb_eq in Et.
  rewrite has_newSet in Hd.
  assert (Js.has (map modelName active) e = true) as Hin.
  { apply has_In. subst e. apply in_map, Ht. }
  congruence.
Qed.

Section Incremental.
Variable db : Database.
Variable tables : BetterAuthDBSchema.

Let existingTables := queryExistingTables db.
Let existingColumns := queryExistingColumns db (desiredTableNames tables).

Lemma incremental_up :
  upStatements (incremental db tables)
  = flat_map (upOf tables existingTables existingColumns) (activeTables tables).
Proof. unfold incremental. simpl. rewrite fold_reconcileTable. reflexivity. Qed.

Lemma incremental_down :
  downStatements (incremental db tables)
  = rev (flat_map (createdDropOf existingTables) (activeTables tables))
    ++ flat_map (alterDownOf tables existingTables existingColumns)
         (activeTables tables).
Proof. unfold incremental. simpl. rewrite fold_reconcileTable. reflexivity. Qed.

Lemma incremental_warnings :
  warnings (incremental db tables)
  = flat_map (warningsOf existingTables existingColumns) (activeTables tables).
Proof.
  unfold incremental. simpl. rewrite fold_reconcileTable. simpl.
  unfold desiredTableNames. rewrite tableWarnings_nil, app_nil_r. reflexivity.
Qed.
End Incremental.

(** C3. The loop over the catalog tables never emits a table-level warning:
    for every schema and catalog its contribution is empty.  On a catalog
    holding the table [two_factor], which the schema no longer declares, the
    generator answers that nothing has changed. *)
Theorem table_warning_never_emitted :
  (forall (db : Database) (tables : BetterAuthDBSchema),
      tableWarnings (queryExistingTables db) (desiredTableNames tables)
        (activeTables tables) = [])
  /\ Js.has (queryExistingTables Sample.dbWithRemovedTable) "two_factor" = true
  /\ Js.has (desiredTableNames Sample.schemaUserOnly) "two_factor" = false
  /\ isFresh Sample.dbWithRemovedTable = false
  /\ code (generateLucidMigration Sample.dbWithRemovedTable Sample.clock
             Sample.schemaUserOnly None)
     = noChangesCode.
Proof.
  split; [|repeat split; reflexivity].
  intros db tables. unfold desiredTableNames. apply tableWarnings_nil.
Qed.

(** ** Up and down sequences *)

Lemma createTable_not_alterTable
    (tables : BetterAuthDBSchema) (t : Table) (name : string) (lines : list string) :
  createTableStatement tables t <> alterTableStatement name lines.
Proof.
  unfold createTableStatement, generateCreateTableBlock, alterTableStatement.
  simpl. discriminate.
Qed.








(** ** Tables excluded from migrations *)

Lemma code_incremental (db : Database) (now : Date) (tables : BetterAuthDBSchema)
    (file : option string) :
  isFresh db = false ->
  code (generateLucidMigration db now tables file)
  = match upStatements (incremental db tables), warnings (incremental db tables) with
    | [], [] => noChangesCode
    | _, _ => wrapInBaseSchema (incrementalUpBody (incremental db tables))
                (incrementalDownBody (incremental db tables))
    end.
Proof.
  intros H. unfold generateLucidMigration. rewrite H. cbv zeta.
  destruct (upStatements (incremental db tables));
    destruct (warnings (incremental db tables)); reflexivity.
Qed.


Section FromActiveTables.
Variable tables : BetterAuthDBSchema.
Variable existingTables : list string.
Variable existingColumns : list (string * list string).





End FromActiveTables.




(** ** The column name read back from an added line *)

Lemma string_app_assoc (a b c : string) :
  ((a ++ b) ++ c = a ++ (b ++ c))%string.
Proof. induction a as [|x a IH]; simpl; [reflexivity | rewrite IH; reflexivity]. Qed.

Lemma span_stop (p : ascii -> bool) (a : string) (c : ascii) (r : string) :
  allChars p a = true ->
  p c = false ->
  span p (a ++ String c r) = (a, String c r).
Proof.
  intros Ha Hc. induction a as [|x a IH]; simpl in *.
  - rewrite Hc. reflexivity.
  - apply andb_true_iff in Ha. destruct Ha as [Hx Ha].
    rewrite Hx, (IH Ha). reflexivity.
Qed.

Lemma stripPrefix_app (p s : string) : stripPrefix p (p ++ s)%string = Some s.
Proof.
  induction p as [|c p IH]; simpl; [destruct s; reflexivity|].
  rewrite Ascii.eqb_refl. exact IH.
Qed.

Lemma matchColumn_here (s name : string) :
  matchColumnHere s = Some name -> matchColumn s = Some name.
Proof. intros H. destruct s; cbn [matchColumn]; rewrite H; reflexivity. Qed.

Lemma matchColumn_skip (c : ascii) (s : string) :
  matchColumnHere (String c s) = None ->
  matchColumn (String c s) = matchColumn s.
Proof. intros H. cbn [matchColumn]. rewrite H. reflexivity. Qed.

Lemma matchColumnHere_call (w col rest : string) :
  allChars Js.isWord w = true ->
  w <> EmptyString ->
  plainColumnName col = true ->
  matchColumnHere ("table." ++ w ++ "('" ++ col ++ "'" ++ rest)%string = Some col.
Proof.
  intros Hw Hne Hcol. unfold plainColumnName in Hcol.
  apply andb_true_iff in Hcol. destruct Hcol as [Hcne Hq].
  unfold matchColumnHere. rewrite stripPrefix_app.
  change (w ++ "('" ++ col ++ "'" ++ rest)%string
    with (w ++ String "(" ("'" ++ col ++ String "'" rest))%string.
  rewrite (span_stop Js.isWord w "(" _ Hw eq_refl).
  destruct w as [|w0 w']; [contradiction Hne; reflexivity|].
  change (String "(" ("'" ++ col ++ String "'" rest))%string
    with ("('" ++ (col ++ String "'" rest))%string.
  rewrite stripPrefix_app.
  rewrite (span_stop notQuote col "'" rest Hq eq_refl).
  destruct col as [|c0 col']; [discriminate Hcne | reflexivity].
Qed.

Lemma matchColumn_line (w col rest : string) :
  allChars Js.isWord w = true ->
  w <> EmptyString ->
  plainColumnName col = true ->
  matchColumn ("      table." ++ w ++ "('" ++ col ++ "'" ++ rest)%string = Some col.
Proof.
  intros Hw Hne Hcol.
  change ("      table." ++ w ++ "('" ++ col ++ "'" ++ rest)%string
    with (String " " (String " " (String " " (String " " (String " " (String " "
            ("table." ++ w ++ "('" ++ col ++ "'" ++ rest)))))))%string.
  do 6 (rewrite matchColumn_skip by reflexivity).
  apply matchColumn_here, matchColumnHere_call; assumption.
Qed.

Lemma getKnexType_word (f : DBFieldAttribute) :
  allChars Js.isWord (getKnexType f) = true /\ getKnexType f <> EmptyString.
Proof.
  unfold getKnexType.
  repeat match goal with
         | |- context [if ?b then _ else _] => destruct b
         end; split; (reflexivity || discriminate).
Qed.

Lemma starts_with_call_app (k c s x : string) :
  (exists rest, s = (k ++ "('" ++ c ++ "'" ++ rest)%string) ->
  exists rest, (s ++ x)%string = (k ++ "('" ++ c ++ "'" ++ rest)%string.
Proof.
  intros [rest E]. subst s. exists (rest ++ x)%string.
  rewrite string_app_assoc. simpl. rewrite string_app_assoc. reflexivity.
Qed.

Lemma columnChainHead_shape (key : string) (f : DBFieldAttribute) :
  exists rest,
    columnChainHead key f
    = (getKnexType f ++ "('" ++ getColumnName key f ++ "'" ++ rest)%string.
Proof.
  unfold columnChainHead. cbv zeta.
  assert (H0 : exists rest,
             (getKnexType f ++ "("
                ++ (if String.eqb (getKnexType f) "timestamp"
                    then "'" ++ getColumnName key f ++ "', { useTz: true }"
                    else "'" ++ getColumnName key f ++ "'") ++ ")")%string
             = (getKnexType f ++ "('" ++ getColumnName key f ++ "'" ++ rest)%string).
  { destruct (String.eqb (getKnexType f) "timestamp"); eexists; simpl;
      rewrite string_app_assoc; simpl; reflexivity. }
  assert (H1 : exists rest,
             (if String.eqb key "id"
              then ((getKnexType f ++ "("
                       ++ (if String.eqb (getKnexType f) "timestamp"
                           then "'" ++ getColumnName key f ++ "', { useTz: true }"
                           else "'" ++ getColumnName key f ++ "'") ++ ")")
                      ++ ".primary()")%string
              else (getKnexType f ++ "("
                      ++ (if String.eqb (getKnexType f) "timestamp"
                          then "'" ++ getColumnName key f ++ "', { useTz: true }"
                          else "'" ++ getColumnName key f ++ "'") ++ ")")%string)
             = (getKnexType f ++ "('" ++ getColumnName key f ++ "'" ++ rest)%string).
  { destruct (String.eqb key "id"); [apply starts_with_call_app|]; exact H0. }
  destruct (unique f); [apply starts_with_call_app|];
    destruct (required f) as [[|]|]; apply starts_with_call_app; exact H1.
Qed.

Lemma buildColumnChain_shape
    (key : string) (f : DBFieldAttribute) (allTables : BetterAuthDBSchema) :
  exists rest,
    buildColumnChain key f allTables
    = (getKnexType f ++ "('" ++ getColumnName key f ++ "'" ++ rest)%string.
Proof.
  unfold buildColumnChain. cbv zeta.
  destruct (references f) as [refs|].
  - apply starts_with_call_app, columnChainHead_shape.
  - destruct (index f); [apply starts_with_call_app|]; apply columnChainHead_shape.
Qed.

Lemma matchColumn_addColumnLine
    (tables : BetterAuthDBSchema) (kf : string * DBFieldAttribute) :
  plainColumnName (getColumnName (fst kf) (snd kf)) = true ->
  matchColumn (addColumnLine tables kf) = Some (getColumnName (fst kf) (snd kf)).
Proof.
  intros Hp. unfold addColumnLine.
  destruct (buildColumnChain_shape (fst kf) (snd kf) tables) as [rest E].
  rewrite E. destruct (getKnexType_word (snd kf)) as [Hw Hne].
  apply matchColumn_line; assumption.
Qed.

Lemma addColumnLines_missing
    (tables : BetterAuthDBSchema) (cols : list string) (fs : Fields) :
  addColumnLines tables cols fs
  = map (addColumnLine tables) (missingFields cols fs).
Proof.
  unfold addColumnLines, missingFields.
  induction fs as [|kf r IH]; [reflexivity|].
  cbn [flat_map filter]. rewrite IH.
  destruct (String.eqb (fst kf) "id"); [reflexivity|].
  destruct (Js.has cols (getColumnName (fst kf) (snd kf))); reflexivity.
Qed.

Lemma dropColumnLines_plain (tables : BetterAuthDBSchema) (l : Fields) :
  Forall (fun kf => plainColumnName (getColumnName (fst kf) (snd kf)) = true) l ->
  dropColumnLines (map (addColumnLine tables) l)
  = map (fun kf => dropColumnLine (getColumnName (fst kf) (snd kf))) l.
Proof.
  induction 1 as [|kf r Hkf _ IH]; [reflexivity|].
  unfold dropColumnLines in *. cbn [map flat_map].
  rewrite IH, (matchColumn_addColumnLine tables kf Hkf). reflexivity.
Qed.

(** ** Alterations of existing tables *)


Section ExistingTable.
Variable db : Database.
Variable tables : BetterAuthDBSchema.
Variable t : Table.

Let existingTables := queryExistingTables db.
Let existingColumns := queryExistingColumns db (desiredTableNames tables).
Let missing := missingFields (catalogColumns db tables (modelName t)) (fields t).

Hypothesis Hexists : Js.has existingTables (modelName t) = true.

Lemma existing_not_new : isNewTable existingTables t = false.
Proof. unfold isNewTable. rewrite Hexists. reflexivity. Qed.

Lemma existing_createdDropOf : createdDropOf existingTables t = [].
Proof. unfold createdDropOf. rewrite existing_not_new. reflexivity. Qed.

Lemma existing_addLinesOf :
  addLinesOf tables existingColumns t = map (addColumnLine tables) missing.
Proof. unfold addLinesOf. apply addColumnLines_missing. Qed.

Lemma existing_upOf :
  missing <> [] ->
  upOf tables existingTables existingColumns t
  = [alterTableStatement (modelName t) (map (addColumnLine tables) missing)].
Proof.
  intros Hm. unfold upOf. rewrite existing_not_new, existing_addLinesOf.
  destruct missing; [contradiction Hm; reflexivity | reflexivity].
Qed.

Lemma existing_upOf_nil :
  missing = [] -> upOf tables existingTables existingColumns t = [].
Proof.
  intros Hm. unfold upOf. rewrite existing_not_new, existing_addLinesOf, Hm.
  reflexivity.
Qed.

Lemma existing_alterDownOf :
  missing <> [] ->
  Forall (fun kf => plainColumnName (getColumnName (fst kf) (snd kf)) = true)
    missing ->
  alterDownOf tables existingTables existingColumns t
  = [alterTableStatement (modelName t)
       (map (fun kf => dropColumnLine (getColumnName (fst kf) (snd kf))) missing)].
Proof.
  intros Hm Hp. unfold alterDownOf.
  rewrite existing_not_new, existing_addLinesOf.
  destruct missing as [|kf r] eqn:E; [contradiction Hm; reflexivity|].
  cbn [map]. change (addColumnLine tables kf :: map (addColumnLine tables) r)
    with (map (addColumnLine tables) (kf :: r)).
  rewrite (dropColumnLines_plain tables (kf :: r) Hp). reflexivity.
Qed.

Lemma existing_warningsOf :
  warningsOf existingTables existingColumns t
  = columnWarnings (modelName t) (fields t)
      (catalogColumns db tables (modelName t)).
Proof. unfold warningsOf. rewrite existing_not_new. reflexivity. Qed.
End ExistingTable.

(** C5, as the code has it.  In provisioned mode, an active table that the
    catalog holds and that declares non-id fields whose columns the catalog
    lacks contributes to up exactly one statement, the alteration adding all
    these columns, which is not a creation statement.  What it contributes
    to down is placed after the drops of all newly created tables and after
    the statements that undo the alterations of the tables before it; when
    the names of these columns are not empty and hold no single quote, it is
    exactly one statement, dropping exactly these columns. *)
Theorem alteration_for_missing_columns
    (db : Database) (tables : BetterAuthDBSchema)
    (pre post : list Table) (t : Table) :
  isFresh db = false ->
  activeTables tables = pre ++ t :: post ->
  Js.has (queryExistingTables db) (modelName t) = true ->
  missingFields (catalogColumns db tables (modelName t)) (fields t) <> [] ->
  let existingTables := queryExistingTables db in
  let existingColumns := queryExistingColumns db (desiredTableNames tables) in
  let missing :=
    missingFields (catalogColumns db tables (modelName t)) (fields t) in
  let alteration :=
    alterTableStatement (modelName t) (map (addColumnLine tables) missing) in
  upSequence db tables
  = flat_map (upOf tables existingTables existingColumns) pre
    ++ [alteration]
    ++ flat_map (upOf tables existingTables existingColumns) post
  /\ (forall tables' t', alteration <> createTableStatement tables' t')
  /\ downSequence db tables
     = rev (flat_map (createdDropOf existingTables) (pre ++ post))
       ++ flat_map (alterDownOf tables existingTables existingColumns) pre
       ++ alterDownOf tables existingTables existingColumns t
       ++ flat_map (alterDownOf tables existingTables existingColumns) post
  /\ (Forall (fun kf => plainColumnName (getColumnName (fst kf) (snd kf)) = true)
        missing ->
      downSequence db tables
      = rev (flat_map (createdDropOf existingTables) (pre ++ post))
        ++ flat_map (alterDownOf tables existingTables existingColumns) pre
        ++ [alterTableStatement (modelName t)
              (map (fun kf => dropColumnLine (getColumnName (fst kf) (snd kf)))
                 missing)]
        ++ flat_map (alterDownOf tables existingTables existingColumns) post).
Proof.
  intros Hf Ha He Hm. cbv zeta. unfold upSequence, downSequence. rewrite Hf.
  split; [|split; [|split]].
  - rewrite incremental_up, Ha, flat_map_app. cbn [flat_map].
    rewrite (existing_upOf db tables t He Hm). reflexivity.
  - intros tables' t' E. symmetry in E.
    exact (createTable_not_alterTable _ _ _ _ E).
  - rewrite incremental_down, Ha, !flat_map_app. cbn [flat_map].
    rewrite (existing_createdDropOf db t He). reflexivity.
  - intros Hp. rewrite incremental_down, Ha, !flat_map_app. cbn [flat_map].
    rewrite (existing_createdDropOf db t He).
    rewrite (existing_alterDownOf db tables t He Hm Hp).
    reflexivity.
Qed.

Lemma alteration_for_missing_columns_witness :
  (isFresh Sample.dbUserIdOnly = false
   /\ activeTables Sample.schemaTwoFactor = [] ++ Sample.userWithTwoFactor :: []
   /\ Js.has (queryExistingTables Sample.dbUserIdOnly)
        (modelName Sample.userWithTwoFactor) = true
   /\ map fst
        (missingFields
           (catalogColumns Sample.dbUserIdOnly Sample.schemaTwoFactor "user")
           (fields Sample.userWithTwoFactor))
      = ["twoFactorEnabled"; "lastLogin"])
  /\ upSequence Sample.dbUserIdOnly Sample.schemaTwoFactor
     = [ alterTableStatement "user"
           [ "      table.boolean('two_factor_enabled').nullable()";
             "      table.timestamp('last_login', { useTz: true }).notNullable()" ] ]
  /\ downSequence Sample.dbUserIdOnly Sample.schemaTwoFactor
     = [ alterTableStatement "user"
           [ "      table.dropColumn('two_factor_enabled')";
             "      table.dropColumn('last_login')" ] ].
Proof.
  pose proof (alteration_for_missing_columns Sample.dbUserIdOnly
                Sample.schemaTwoFactor [] [] Sample.userWithTwoFactor
                eq_refl eq_refl eq_refl
                ltac:(vm_compute; discriminate)) as [Hu [_ [_ Hd]]].
  split; [repeat split; reflexivity|].
  split; [exact Hu|].
  apply Hd. vm_compute. repeat constructor.
Defined.

(** C5, as stated, fails for a column whose name is the empty string: the
    alteration adds it, the regular expression reads no name back from the
    added line, and nothing is appended to down. *)
Lemma no_down_statement_for_empty_column_name :
  isFresh Sample.dbUserIdOnly = false
  /\ activeTables Sample.schemaEmptyColumn = [Sample.userWithEmptyColumn]
  /\ Js.has (queryExistingTables Sample.dbUserIdOnly) "user" = true
  /\ missingFields (catalogColumns Sample.dbUserIdOnly Sample.schemaEmptyColumn "user")
       (fields Sample.userWithEmptyColumn)
     = [("nickname", Sample.named EmptyString (Sample.attribute "string"))]
  /\ upSequence Sample.dbUserIdOnly Sample.schemaEmptyColumn
     = [alterTableStatement "user" ["      table.text('').notNullable()"]]
  /\ downSequence Sample.dbUserIdOnly Sample.schemaEmptyColumn = []
  /\ ~ In (alterTableStatement "user" [dropColumnLine EmptyString])
         (downSequence Sample.dbUserIdOnly Sample.schemaEmptyColumn).
Proof.
  repeat split; try reflexivity.
  intros H. exact H.
Qed.

(** ** The no-op artifact *)

Lemma flat_map_nil {A B : Type} (f : A -> list B) (l : list A) :
  flat_map f l = [] <-> Forall (fun x => f x = []) l.
Proof.
  induction l as [|x r IH]; simpl.
  - split; [constructor | reflexivity].
  - split.
    + intros H. apply app_eq_nil in H. destruct H as [H1 H2].
      constructor; [exact H1 | apply IH, H2].
    + intros H. inversion H as [|y l' H1 H2]; subst.
      rewrite H1. apply IH, H2.
Qed.

Lemma columnWarnings_nil (name : string) (fs : Fields) (cols : list string) :
  columnWarnings name fs cols = []
  <-> Forall
        (fun col =>
           col = "id" \/
           exists kf, In kf fs /\ getColumnName (fst kf) (snd kf) = col)
        cols.
Proof.
  unfold columnWarnings. rewrite flat_map_nil.
  split; intros H; eapply Forall_impl; try exact H; cbv beta; intros col Hc.
  - destruct (String.eqb col "id") eqn:E;
      [left; now apply String.eqb_eq in E|].
    destruct (existsb _ fs) eqn:Ex; [|discriminate Hc].
    right. apply existsb_exists in Ex. destruct Ex as [kf [Hin Ek]].
    exists kf. split; [exact Hin | now apply String.eqb_eq in Ek].
  - destruct Hc as [E|[kf [Hin Ek]]].
    + subst col. reflexivity.
    + destruct (String.eqb col "id"); [reflexivity|].
      assert (Ex : existsb
                     (fun kf0 => String.eqb (getColumnName (fst kf0) (snd kf0)) col)
                     fs = true).
      { apply existsb_exists. exists kf. split; [exact Hin|].
        now apply String.eqb_eq. }
      rewrite Ex. reflexivity.
Qed.

Lemma table_contributes_nothing
    (db : Database) (tables : BetterAuthDBSchema) (t : Table) :
  (upOf tables (queryExistingTables db)
     (queryExistingColumns db (desiredTableNames tables)) t = []
   /\ warningsOf (queryExistingTables db)
        (queryExistingColumns db (desiredTableNames tables)) t = [])
  <-> (Js.has (queryExistingTables db) (modelName t) = true
       /\ missingFields (catalogColumns db tables (modelName t)) (fields t) = []
       /\ Forall
            (fun col =>
               col = "id" \/
               exists kf, In kf (fields t)
                          /\ getColumnName (fst kf) (snd kf) = col)
            (catalogColumns db tables (modelName t))).
Proof.
  destruct (Js.has (queryExistingTables db) (modelName t)) eqn:He.
  - rewrite (existing_warningsOf db tables t He), columnWarnings_nil.
    split.
    + intros [Hu Hw]. split; [reflexivity|]. split; [|exact Hw].
      destruct (missingFields (catalogColumns db tables (modelName t)) (fields t))
        eqn:Em; [reflexivity|].
      rewrite (existing_upOf db tables t He) in Hu; [discriminate Hu|].
      rewrite Em. discriminate.
    + intros [_ [Hm Hw]]. split; [|exact Hw].
      apply (existing_upOf_nil db tables t He Hm).
  - split.
    + intros [Hu _]. unfold upOf, isNewTable in Hu. rewrite He in Hu.
      discriminate Hu.
    + intros [H _]. discriminate H.
Qed.

Lemma noChanges_iff_InSync
    (db : Database) (now : Date) (tables : BetterAuthDBSchema)
    (file : option string) :
  code (generateLucidMigration db now tables file) = noChangesCode
  <-> InSync db tables.
Proof.
  unfold InSync. destruct (isFresh db) eqn:Hf.
  - rewrite code_fresh by exact Hf. split.
    + intros H. now apply wrapInBaseSchema_not_noChanges in H.
    + intros [H _]. discriminate H.
  - rewrite code_incremental by exact Hf.
    assert (Hn : (upStatements (incremental db tables) = []
                  /\ warnings (incremental db tables) = [])
                 <-> Forall
                       (fun t =>
                          Js.has (queryExistingTables db) (modelName t) = true /\
                          missingFields (catalogColumns db tables (modelName t))
                            (fields t) = [] /\
                          Forall
                            (fun col =>
                               col = "id" \/
                               exists kf,
                                 In kf (fields t)
                                 /\ getColumnName (fst kf) (snd kf) = col)
                            (catalogColumns db tables (modelName t)))
                       (activeTables tables)).
    { rewrite incremental_up, incremental_warnings, !flat_map_nil. split.
      - intros [Hu Hw]. apply Forall_forall. intros t Ht.
        apply (table_contributes_nothing db tables t). split.
        + eapply Forall_forall in Hu; eassumption.
        + eapply Forall_forall in Hw; eassumption.
      - intros H. split; apply Forall_forall; intros t Ht;
          eapply Forall_forall in H; try exact Ht;
          apply (table_contributes_nothing db tables t) in H; apply H. }
    rewrite <- Hn.
    destruct (upStatements (incremental db tables));
      destruct (warnings (incremental db tables)); split;
      try (intros H; now apply wrapInBaseSchema_not_noChanges in H);
      try (intros [_ [H1 H2]]; discriminate).
    + intros _. repeat split; reflexivity.
    + reflexivity.
Qed.

(** C6, as the code has it.  Two runs on the same catalog and the same
    schema return the same code, never asking to overwrite; both return the
    no-op artifact exactly when catalog and schema agree: the database is
    provisioned, every active table exists with the columns of all its non-id
    fields, and every other catalog column of an active table, [id] apart, is
    the column of a declared field. *)
Theorem repeated_generation
    (db : Database) (tables : BetterAuthDBSchema)
    (first second : Date) (file : option string) :
  code (generateLucidMigration db first tables file)
  = code (generateLucidMigration db second tables file)
  /\ overwrite (generateLucidMigration db first tables file) = false
  /\ overwrite (generateLucidMigration db second tables file) = false
  /\ (InSync db tables ->
      code (generateLucidMigration db first tables file) = noChangesCode
      /\ code (generateLucidMigration db second tables file) = noChangesCode)
  /\ (code (generateLucidMigration db first tables file) = noChangesCode ->
      InSync db tables).
Proof.
  assert (Ho : forall now, overwrite (generateLucidMigration db now tables file) = false).
  { intros now. unfold generateLucidMigration.
    destruct (isFresh db); [reflexivity|]. cbv zeta.
    destruct (upStatements (incremental db tables));
      destruct (warnings (incremental db tables)); reflexivity. }
  split; [|split; [apply Ho | split; [apply Ho|]]].
  - destruct (isFresh db) eqn:Hf.
    + rewrite !code_fresh by exact Hf. reflexivity.
    + rewrite !code_incremental by exact Hf. reflexivity.
  - split.
    + intros H. split; apply noChanges_iff_InSync; exact H.
    + apply noChanges_iff_InSync.
Qed.

Lemma repeated_generation_witness :
  InSync Sample.coreDb Sample.CORE_SCHEMA
  /\ code (generateLucidMigration Sample.coreDb Sample.clock
             Sample.CORE_SCHEMA None) = noChangesCode
  /\ code (generateLucidMigration Sample.coreDb Sample.laterClock
             Sample.CORE_SCHEMA None) = noChangesCode.
Proof.
  destruct (repeated_generation Sample.coreDb Sample.CORE_SCHEMA
              Sample.clock Sample.laterClock None) as [_ [_ [_ [Hto Hfrom]]]].
  assert (Hs : InSync Sample.coreDb Sample.CORE_SCHEMA)
    by (apply Hfrom; reflexivity).
  split; [exact Hs | exact (Hto Hs)].
Defined.

(** C6, as stated, fails: on an empty catalog both runs return the full
    migration of the core tables, not the no-op artifact. *)
Lemma repeated_generation_on_fresh_database :
  code (generateLucidMigration Sample.emptyDb Sample.clock
          Sample.CORE_SCHEMA None)
  = code (generateLucidMigration Sample.emptyDb Sample.laterClock
            Sample.CORE_SCHEMA None)
  /\ code (generateLucidMigration Sample.emptyDb Sample.clock
             Sample.CORE_SCHEMA None) <> noChangesCode
  /\ code (generateLucidMigration Sample.emptyDb Sample.laterClock
             Sample.CORE_SCHEMA None) <> noChangesCode.
Proof.
  split; [reflexivity|].
  split; rewrite code_fresh by reflexivity; apply wrapInBaseSchema_not_noChanges.
Qed.

(** ** Catalog columns that the schema no longer declares *)



Lemma stale_column_warned
    (db : Database) (tables : BetterAuthDBSchema) (t : Table) (col w : string) :
  In t (activeTables tables) ->
  Js.has (queryExistingTables db) (modelName t) = true ->
  In col (catalogColumns db tables (modelName t)) ->
  col <> "id" ->
  (forall kf, In kf (fields t) -> getColumnName (fst kf) (snd kf) <> col) ->
  In w (columnWarning (modelName t) col) ->
  In w (warnings (incremental db tables)).
Proof.
  intros Ht He Hc Hid Hnone Hw.
  rewrite incremental_warnings. apply in_flat_map. exists t. split; [exact Ht|].
  rewrite (existing_warningsOf db tables t He).
  unfold columnWarnings. apply in_flat_map. exists col. split; [exact Hc|].
  apply String.eqb_neq in Hid. rewrite Hid.
  destruct (existsb
              (fun kf => String.eqb (getColumnName (fst kf) (snd kf)) col)
              (fields t)) eqn:Ex; [|exact Hw].
  apply existsb_exists in Ex. destruct Ex as [kf [Hin Ek]].
  apply String.eqb_eq in Ek. now apply Hnone in Hin.
Qed.





(** ** The unit tests of the repository, on the model *)

Section UnitTests.
Let fresh := generateLucidMigration Sample.emptyDb Sample.clock.
Let provisioned := generateLucidMigration Sample.coreDb Sample.clock.

(** generates CREATE TABLE for all 4 core tables *)
Example test_fresh_creates_core_tables :
  forallb (Js.includes (code (fresh Sample.CORE_SCHEMA None)))
    [ "createTable('user'"; "createTable('session'"; "createTable('account'";
      "createTable('verification'" ] = true.
Proof. reflexivity. Qed.

(** includes plugin table when schema has twoFactor *)
Example test_fresh_plugin_table :
  forallb (Js.includes (code (fresh Sample.schemaWithPlugin None)))
    [ "createTable('twoFactor'"; "two_factor_enabled" ] = true.
Proof. reflexivity. Qed.

(** maps field types correctly *)
Example test_fresh_field_types :
  forallb (Js.includes (code (fresh Sample.CORE_SCHEMA None)))
    [ "string('name'"; "text('image'"; "timestamp('created_at'";
      ".references('id').inTable('user').onDelete('CASCADE')" ] = true.
Proof. reflexivity. Qed.

(** generates ADD COLUMN for new plugin field on existing table; generates
    CREATE TABLE for new plugin table when core tables exist *)
Example test_incremental_plugin :
  forallb (Js.includes (code (provisioned Sample.schemaWithPlugin None)))
    [ "this.schema.table('user'"; "two_factor_enabled";
      "createTable('twoFactor'" ] = true
  /\ Js.includes (code (provisioned Sample.schemaWithPlugin None))
       "createTable('user'" = false.
Proof. split; reflexivity. Qed.

(** returns no-changes comment when schema is already in sync *)
Example test_incremental_in_sync :
  Js.includes (code (provisioned Sample.CORE_SCHEMA None)) "No changes needed"
  = true.
Proof. reflexivity. Qed.

(** emits WARNING comment for removed column (no DROP generated) *)
Example test_incremental_removed_column :
  forallb
    (Js.includes
       (code (generateLucidMigration Sample.coreDbWithOldColumn Sample.clock
                Sample.CORE_SCHEMA None)))
    [ "WARNING"; "old_column" ] = true
  /\ Js.includes
       (Js.stripLineComments false
          (code (generateLucidMigration Sample.coreDbWithOldColumn Sample.clock
                   Sample.CORE_SCHEMA None)))
       "dropColumn" = false.
Proof. split; reflexivity. Qed.

(** Tables are sorted by [order], 999 when absent; ties keep the declaration
    order. *)
Example test_sort_is_stable :
  map modelName (activeTables Sample.schemaWithTies) = ["a"; "d"; "b"; "c"; "late"].
Proof. reflexivity. Qed.

(** The path defaults to the time stamp of the run. *)
Example test_default_path :
  path (fresh Sample.CORE_SCHEMA None)
  = "database/migrations/20240105130409_better_auth_schema.ts"
  /\ path (fresh Sample.CORE_SCHEMA (Some "migration.ts")) = "migration.ts".
Proof. split; reflexivity. Qed.
End UnitTests.

(** ** Further properties of the column helpers *)









Lemma prefix_app (n b : string) : String.prefix n (n ++ b)%string = true.
Proof.
  induction n as [|c n IH]; simpl; [destruct b; reflexivity|].
  destruct (ascii_dec c c) as [_|N]; [exact IH | contradiction N; reflexivity].
Qed.

Lemma includes_unfold (s n : string) :
  Js.includes s n
  = if String.prefix n s then true
    else match s with
         | EmptyString => false
         | String _ r => Js.includes r n
         end.
Proof. destruct s; reflexivity. Qed.

Lemma includes_here (n b : string) : Js.includes (n ++ b)%string n = true.
Proof. rewrite includes_unfold, prefix_app. reflexivity. Qed.

Lemma includes_app_r (a b n : string) :
  Js.includes b n = true -> Js.includes (a ++ b)%string n = true.
Proof.
  intros H. induction a as [|c a IH]; [exact H|].
  rewrite includes_unfold. cbn [append]. rewrite IH.
  destruct (String.prefix n (String c (a ++ b))); reflexivity.
Qed.

Lemma prefix_app_l (n a b : string) :
  String.prefix n a = true -> String.prefix n (a ++ b)%string = true.
Proof.
  revert a. induction n as [|c n IH]; intros a H.
  - destruct (a ++ b)%string; reflexivity.
  - destruct a as [|c' a]; [discriminate H|].
    simpl in *. destruct (ascii_dec c c'); [apply IH, H | discriminate H].
Qed.

Lemma includes_app_l (a b n : string) :
  Js.includes a n = true -> Js.includes (a ++ b)%string n = true.
Proof.
  induction a as [|c a IH]; intros H; rewrite includes_unfold in H.
  - destruct (String.prefix n EmptyString) eqn:E; [|discriminate H].
    destruct n; [|discriminate E]. apply (includes_here EmptyString b).
  - rewrite includes_unfold.
    destruct (String.prefix n (String c a)) eqn:E.
    + rewrite (prefix_app_l _ _ b E). reflexivity.
    + cbn [append]. rewrite (IH H).
      destruct (String.prefix n (String c (a ++ b))); reflexivity.
Qed.

Lemma includes_suffix (a n : string) : Js.includes (a ++ n)%string n = true.
Proof.
  apply includes_app_r.
  rewrite <- (includes_here n EmptyString) at 1.
  f_equal. induction n as [|c n IH]; simpl; [reflexivity | now rewrite <- IH].
Qed.

(** X3. The column chain carries the marker of each constraint of the field:
    [.unique()] when [unique] is set, [.nullable()] when [required] is
    [false] and [.notNullable()] otherwise, [.primary()] for the key [id],
    and [.index()] for an indexed field without foreign key. *)
Theorem column_constraints_marked
    (key : string) (f : DBFieldAttribute) (allTables : BetterAuthDBSchema) :
  (unique f = true ->
   Js.includes (buildColumnChain key f allTables) ".unique()" = true)
  /\ (required f = Some false ->
      Js.includes (buildColumnChain key f allTables) ".nullable()" = true)
  /\ (required f <> Some false ->
      Js.includes (buildColumnChain key f allTables) ".notNullable()" = true)
  /\ (key = "id" ->
      Js.includes (buildColumnChain key f allTables) ".primary()" = true)
  /\ (index f = true -> references f = None ->
      Js.includes (buildColumnChain key f allTables) ".index()" = true).
Proof.
  assert (Hhead : forall n,
             Js.includes (columnChainHead key f) n = true ->
             Js.includes (buildColumnChain key f allTables) n = true).
  { intros n H. unfold buildColumnChain. cbv zeta.
    destruct (references f); [apply includes_app_l, H|].
    destruct (index f); [apply includes_app_l, H | exact H]. }
  split; [|split; [|split; [|split]]].
  - intros Hu. apply Hhead. unfold columnChainHead. cbv zeta. rewrite Hu.
    apply includes_suffix.
  - intros Hr. apply Hhead. unfold columnChainHead. cbv zeta. rewrite Hr.
    destruct (unique f); [apply includes_app_l|]; apply includes_suffix.
  - intros Hr. apply Hhead. unfold columnChainHead. cbv zeta.
    destruct (required f) as [[|]|]; [| contradiction Hr; reflexivity |];
      (destruct (unique f); [apply includes_app_l|]; apply includes_suffix).
  - intros Hk. apply Hhead. unfold columnChainHead. cbv zeta. subst key.
    cbn [String.eqb Ascii.eqb Bool.eqb].
    destruct (unique f); [apply includes_app_l|];
      (destruct (required f) as [[|]|]; apply includes_app_l, includes_suffix).
  - intros Hi Hr. unfold buildColumnChain. cbv zeta. rewrite Hr, Hi.
    apply includes_suffix.
Qed.

Lemma column_constraints_marked_witness :
  Js.includes
    (buildColumnChain "email" (Sample.sortableString true) Sample.CORE_SCHEMA)
    ".unique()" = true
  /\ Js.includes
       (buildColumnChain "image" (Sample.optional (Sample.attribute "string"))
          Sample.CORE_SCHEMA)
       ".nullable()" = true
  /\ Js.includes
       (buildColumnChain "email" (Sample.sortableString true) Sample.CORE_SCHEMA)
       ".notNullable()" = true
  /\ Js.includes
       (buildColumnChain "id" (Sample.attribute "string") Sample.CORE_SCHEMA)
       ".primary()" = true
  /\ Js.includes
       (buildColumnChain "token" (Sample.indexed (Sample.attribute "string"))
          Sample.CORE_SCHEMA)
       ".index()" = true.
Proof.
  split; [|split; [|split; [|split]]].
  - apply (proj1 (column_constraints_marked "email" (Sample.sortableString true)
                    Sample.CORE_SCHEMA)).
    reflexivity.
  - apply (proj1 (proj2 (column_constraints_marked "image"
                           (Sample.optional (Sample.attribute "string"))
                           Sample.CORE_SCHEMA))).
    reflexivity.
  - apply (proj1 (proj2 (proj2 (column_constraints_marked "email"
                                  (Sample.sortableString true)
                                  Sample.CORE_SCHEMA)))).
    discriminate.
  - apply (proj1 (proj2 (proj2 (proj2 (column_constraints_marked "id"
                                         (Sample.attribute "string")
                                         Sample.CORE_SCHEMA))))).
    reflexivity.
  - apply (proj2 (proj2 (proj2 (proj2 (column_constraints_marked "token"
                                         (Sample.indexed (Sample.attribute "string"))
                                         Sample.CORE_SCHEMA)))));
      reflexivity.
Defined.

(** ** Further properties of the creation block *)






(** ** Further properties of the catalog reader *)

Lemma NoDup_setAdd (s : list string) (c : string) :
  NoDup s -> NoDup (Js.setAdd s c).
Proof.
  intros H. unfold Js.setAdd. destruct (Js.has s c) eqn:E; [exact H|].
  apply NoDup_app; [exact H | repeat constructor; intros [] |].
  intros x Hx [Hc|[]]. subst x. apply has_In in Hx. congruence.
Qed.

Lemma NoDup_newSet (l : list string) : NoDup (Js.newSet l).
Proof.
  unfold Js.newSet.
  assert (H : forall s, NoDup s -> NoDup (fold_left Js.setAdd l s)).
  { induction l as [|x r IH]; intros s Hs; [exact Hs|].
    simpl. apply IH, NoDup_setAdd, Hs. }
  apply H. constructor.
Qed.

(** X5. [queryExistingTables] returns the names of exactly the rows of
    [information_schema.tables] that are base tables of the schema
    [public], each name once. *)
Theorem queryExistingTables_exact (db : Database) :
  NoDup (queryExistingTables db)
  /\ forall name,
      In name (queryExistingTables db)
      <-> exists row,
            In row (information_schema_tables db)
            /\ tables_table_schema row = "public"
            /\ table_type row = "BASE TABLE"
            /\ tables_table_name row = name.
Proof.
  split; [apply NoDup_newSet | apply queryExistingTables_spec].
Qed.

Lemma addColumn_keys (result : list (string * list string)) (t c : string) :
  map fst (addColumn result t c)
  = if Js.has (map fst result) t then map fst result else map fst result ++ [t].
Proof.
  induction result as [|[k s] r IH]; [reflexivity|].
  simpl. destruct (String.eqb t k); [reflexivity|].
  simpl. rewrite IH. destruct (Js.has (map fst r) t); reflexivity.
Qed.

Section ColumnQuery.
Variable db : Database.
Variable tableNames : list string.

Let step (result : list (string * list string)) (row : ColumnRow) :=
  addColumn result (columns_table_name row) (column_name row).

Lemma fold_addColumn_NoDup
    (rows : list ColumnRow) (result : list (string * list string)) :
  NoDup (map fst result) ->
  (forall name, NoDup (currentColumns result name)) ->
  NoDup (map fst (fold_left step rows result))
  /\ forall name, NoDup (currentColumns (fold_left step rows result) name).
Proof.
  revert result. induction rows as [|row r IH]; intros result Hk Hs.
  - split; assumption.
  - simpl. apply IH.
    + unfold step. rewrite addColumn_keys.
      apply (NoDup_setAdd (map fst result) (columns_table_name row) Hk).
    + intros name. unfold step. rewrite currentColumns_addColumn.
      destruct (String.eqb name (columns_table_name row));
        [apply NoDup_setAdd|]; apply Hs.
Qed.

Lemma queryExistingColumns_In (name c : string) :
  In c (currentColumns (queryExistingColumns db tableNames) name)
  <-> In name tableNames
      /\ exists row,
          In row (information_schema_columns db)
          /\ columns_table_schema row = "public"
          /\ columns_table_name row = name
          /\ column_name row = c.
Proof.
  unfold queryExistingColumns.
  destruct tableNames as [|n ns] eqn:Ed.
  - simpl. split; [intros [] | intros [[] _]].
  - rewrite currentColumns_fold. simpl currentColumns. split.
    + intros [[]|[row [Hin [Hn Hc]]]].
      apply filter_In in Hin. destruct Hin as [Hin Hf].
      apply andb_true_iff in Hf. destruct Hf as [Hs Hh].
      apply String.eqb_eq in Hs. apply has_In in Hh. rewrite Hn in Hh.
      split; [exact Hh|]. exists row. repeat split; assumption.
    + intros [Hd [row [Hin [Hs [Hn Hc]]]]]. right. exists row.
      split; [|split; assumption].
      apply filter_In. split; [exact Hin|].
      apply andb_true_iff. split; [now apply String.eqb_eq|].
      apply has_In. rewrite Hn. exact Hd.
Qed.

Lemma queryExistingColumns_NoDup :
  NoDup (map fst (queryExistingColumns db tableNames))
  /\ forall name, NoDup (currentColumns (queryExistingColumns db tableNames) name).
Proof.
  unfold queryExistingColumns. destruct tableNames as [|n ns].
  - split; [constructor | intros name; constructor].
  - apply fold_addColumn_NoDup; [constructor | intros name; constructor].
Qed.
End ColumnQuery.

(** X6. [queryExistingColumns] returns the empty map for the empty list of
    names.  Otherwise the columns it gives for a name are exactly the columns
    that [information_schema.columns] lists for that table in the schema
    [public], provided the name was requested, and none for any other name;
    no table and no column occurs twice. *)
Theorem queryExistingColumns_exact (db : Database) (tableNames : list string) :
  queryExistingColumns db [] = []
  /\ NoDup (map fst (queryExistingColumns db tableNames))
  /\ (forall name, NoDup (currentColumns (queryExistingColumns db tableNames) name))
  /\ (forall name c,
         In c (currentColumns (queryExistingColumns db tableNames) name)
         <-> In name tableNames
             /\ exists row,
                 In row (information_schema_columns db)
                 /\ columns_table_schema row = "public"
                 /\ columns_table_name row = name
                 /\ column_name row = c).
Proof.
  split; [reflexivity|].
  split; [apply queryExistingColumns_NoDup|].
  split; [apply queryExistingColumns_NoDup | apply queryExistingColumns_In].
Qed.

(** ** Further properties of the generator *)

(** X7. The tables that the generator works on are exactly the declared
    tables that are not excluded from migrations, each as often as declared,
    in ascending [order] (999 when absent), tables of equal order keeping
    their declaration order. *)
Theorem activeTables_sorted_stable (tables : BetterAuthDBSchema) :
  Permutation (activeTables tables)
    (filter (fun t => negb (disableMigrations t)) (declaredTables tables))
  /\ StronglySorted orderLe (activeTables tables)
  /\ (forall k,
         filter (hasOrder k) (activeTables tables)
         = filter (hasOrder k)
             (filter (fun t => negb (disableMigrations t)) (declaredTables tables)))
  /\ (forall t,
         In t (activeTables tables)
         <-> In t (declaredTables tables) /\ disableMigrations t = false).
Proof.
  split; [apply activeTables_perm|].
  split; [apply (sort_sorted tableOrder)|].
  split; [intros k; apply (sort_stable tableOrder) | apply activeTables_In].
Qed.

Lemma flat_map_lengths_le {A B : Type}
    (f g h : A -> list B) (l : list A) :
  (forall x, List.length (f x) + List.length (g x) <= List.length (h x)) ->
  List.length (flat_map f l) + List.length (flat_map g l)
  <= List.length (flat_map h l).
Proof.
  intros H. induction l as [|x r IH]; [apply le_n|].
  simpl. rewrite !length_app. specialize (H x). lia.
Qed.

Lemma contribution_lengths
    (tables : BetterAuthDBSchema) (existingTables : list string)
    (existingColumns : list (string * list string)) (t : Table) :
  List.length (createdDropOf existingTables t
               ++ alterDownOf tables existingTables existingColumns t)
  <= List.length (upOf tables existingTables existingColumns t)
  /\ List.length (upOf tables existingTables existingColumns t) <= 1.
Proof.
  unfold createdDropOf, alterDownOf, upOf.
  destruct (isNewTable existingTables t); [split; apply le_n|].
  destruct (addLinesOf tables existingColumns t) as [|line lines];
    [split; [apply le_n | apply le_S, le_n]|].
  destruct (dropColumnLines (line :: lines));
    split; try apply le_n; apply le_S, le_n.
Qed.


(** X8. In both modes every active table contributes at most one statement
    to up, and down never holds more statements than up: in fresh mode as
    many, in provisioned mode at most as many. *)
Theorem statement_counts (db : Database) (tables : BetterAuthDBSchema) :
  List.length (downSequence db tables) <= List.length (upSequence db tables)
  /\ List.length (upSequence db tables) <= List.length (activeTables tables)
  /\ (isFresh db = true ->
      List.length (downSequence db tables) = List.length (activeTables tables)
      /\ List.length (upSequence db tables) = List.length (activeTables tables)).
Proof.
  unfold downSequence, upSequence. destruct (isFresh db) eqn:Hf.
  - unfold freshDownLines, freshUpBlocks.
    rewrite !length_map, length_rev.
    split; [apply le_n|]. split; [apply le_n|]. intros _. split; reflexivity.
  - rewrite incremental_up, incremental_down.
    split; [|split; [|discriminate]].
    + rewrite length_app, length_rev.
      apply flat_map_lengths_le. intros t. rewrite <- length_app.
      apply contribution_lengths.
    + induction (activeTables tables) as [|t r IH]; [apply le_n|].
      simpl. rewrite length_app.
      pose proof (contribution_lengths tables (queryExistingTables db)
                    (queryExistingColumns db (desiredTableNames tables)) t)
        as [_ H].
      lia.
Qed.

Lemma statement_counts_witness :
  isFresh Sample.emptyDb = true
  /\ List.length (downSequence Sample.emptyDb Sample.CORE_SCHEMA) = 4
  /\ List.length (upSequence Sample.emptyDb Sample.CORE_SCHEMA) = 4.
Proof.
  split; [reflexivity|].
  exact (proj2 (proj2 (statement_counts Sample.emptyDb Sample.CORE_SCHEMA))
           eq_refl).
Defined.

Lemma flat_map_singleton {A B : Type} (f : A -> list B) (g : A -> B) (l : list A) :
  Forall (fun x => f x = [g x]) l -> flat_map f l = map g l.
Proof.
  induction 1 as [|x r Hx _ IH]; [reflexivity|].
  simpl. rewrite Hx, IH. reflexivity.
Qed.

Lemma flat_map_all_nil {A B : Type} (f : A -> list B) (l : list A) :
  Forall (fun x => f x = []) l -> flat_map f l = [].
Proof. apply flat_map_nil. Qed.

(** X9. In provisioned mode, when the catalog holds none of the active
    tables, the incremental branch builds the statements of fresh mode: one
    creation block per active table in sorted order, the drops in the reverse
    order, and no warning. *)
Theorem incremental_all_new (db : Database) (tables : BetterAuthDBSchema) :
  isFresh db = false ->
  Forall (fun t => Js.has (queryExistingTables db) (modelName t) = false)
    (activeTables tables) ->
  upStatements (incremental db tables) = freshUpBlocks tables
  /\ downStatements (incremental db tables) = freshDownLines tables
  /\ warnings (incremental db tables) = [].
Proof.
  intros _ Hnew.
  rewrite incremental_up, incremental_down, incremental_warnings.
  unfold freshUpBlocks, freshDownLines.
  split; [|split].
  - apply flat_map_singleton. eapply Forall_impl; [|exact Hnew].
    cbv beta. intros t Ht. unfold upOf, isNewTable. rewrite Ht. reflexivity.
  - rewrite (flat_map_all_nil
               (alterDownOf tables (queryExistingTables db)
                  (queryExistingColumns db (desiredTableNames tables)))).
    + rewrite app_nil_r, map_rev. f_equal.
      apply flat_map_singleton. eapply Forall_impl; [|exact Hnew].
      cbv beta. intros t Ht. unfold createdDropOf, isNewTable. rewrite Ht.
      reflexivity.
    + eapply Forall_impl; [|exact Hnew].
      cbv beta. intros t Ht. unfold alterDownOf, isNewTable. rewrite Ht.
      reflexivity.
  - apply flat_map_all_nil. eapply Forall_impl; [|exact Hnew].
    cbv beta. intros t Ht. unfold warningsOf, isNewTable. rewrite Ht.
    reflexivity.
Qed.

Lemma incremental_all_new_witness :
  (isFresh Sample.dbUserIdOnly = false
   /\ map modelName (activeTables Sample.schemaAccountOnly)
      = ["account"; "verification"]
   /\ queryExistingTables Sample.dbUserIdOnly = ["user"])
  /\ upStatements (incremental Sample.dbUserIdOnly Sample.schemaAccountOnly)
     = freshUpBlocks Sample.schemaAccountOnly
  /\ downStatements (incremental Sample.dbUserIdOnly Sample.schemaAccountOnly)
     = [dropTableStatement "verification"; dropTableStatement "account"]
  /\ warnings (incremental Sample.dbUserIdOnly Sample.schemaAccountOnly) = [].
Proof.
  split; [repeat split; reflexivity|].
  apply (incremental_all_new Sample.dbUserIdOnly Sample.schemaAccountOnly).
  - reflexivity.
  - vm_compute. repeat constructor.
Defined.

(** X10. The warnings of provisioned mode are exactly the comment lines
    about the stale columns: a line is among them if and only if it is one
    of the three lines written for a column that the catalog lists for an
    active table it holds, that is not [id], and that is the column of none
    of the declared fields of that table.  No warning is written for a table
    to create, for [id], or for a declared column. *)
Theorem warnings_exactly_stale_columns
    (db : Database) (tables : BetterAuthDBSchema) (w : string) :
  In w (warnings (incremental db tables))
  <-> exists t col,
        In t (activeTables tables)
        /\ Js.has (queryExistingTables db) (modelName t) = true
        /\ In col (catalogColumns db tables (modelName t))
        /\ staleColumn (fields t) col
        /\ In w (columnWarning (modelName t) col).
Proof.
  split.
  - rewrite incremental_warnings. intros Hw.
    apply in_flat_map in Hw. destruct Hw as [t [Ht Hw]].
    unfold warningsOf, isNewTable in Hw.
    destruct (Js.has (queryExistingTables db) (modelName t)) eqn:He;
      [|destruct Hw].
    cbn [negb] in Hw. unfold columnWarnings in Hw.
    apply in_flat_map in Hw. destruct Hw as [col [Hc Hw]].
    destruct (String.eqb col "id") eqn:Eid; [destruct Hw|].
    destruct (existsb
                (fun kf => String.eqb (getColumnName (fst kf) (snd kf)) col)
                (fields t)) eqn:Ex; [destruct Hw|].
    exists t, col. repeat split; try assumption.
    + now apply String.eqb_neq.
    + intros kf Hin E.
      assert (Ht' : existsb
                      (fun kf => String.eqb (getColumnName (fst kf) (snd kf)) col)
                      (fields t) = true).
      { apply existsb_exists. exists kf. split; [exact Hin|].
        now apply String.eqb_eq. }
      congruence.
  - intros [t [col [Ht [He [Hc [[Hid Hnone] Hw]]]]]].
    eapply stale_column_warned; eassumption.
Qed.

(** X11. In fresh mode the content of the catalog plays no part: on any two
    catalogs without a [user] table the generator returns the same artifact,
    the one of the empty catalog, so that a table the catalog already holds
    is created all the same. *)
Theorem fresh_mode_ignores_catalog
    (db db' : Database) (now : Date) (tables : BetterAuthDBSchema)
    (file : option string) :
  isFresh db = true ->
  isFresh db' = true ->
  generateLucidMigration db now tables file
  = generateLucidMigration db' now tables file
  /\ upSequence db tables = map (createTableStatement tables) (activeTables tables).
Proof.
  intros H H'. unfold generateLucidMigration, upSequence. rewrite H, H'.
  split; reflexivity.
Qed.

Lemma fresh_mode_ignores_catalog_witness :
  (isFresh Sample.dbSessionOnly = true /\ isFresh Sample.emptyDb = true)
  /\ generateLucidMigration Sample.dbSessionOnly Sample.clock
       Sample.CORE_SCHEMA None
     = generateLucidMigration Sample.emptyDb Sample.clock Sample.CORE_SCHEMA None
  /\ In (createTableStatement Sample.CORE_SCHEMA Sample.session)
       (upSequence Sample.dbSessionOnly Sample.CORE_SCHEMA).
Proof.
  split; [split; reflexivity|].
  destruct (fresh_mode_ignores_catalog Sample.dbSessionOnly Sample.emptyDb
              Sample.clock Sample.CORE_SCHEMA None eq_refl eq_refl) as [H1 H2].
  split; [exact H1|].
  rewrite H2. right; left. reflexivity.
Defined.

(** ** The schema map is read through the active tables and the names it
    resolves *)

Section SchemaExtensionality.
Variables tables tables' : BetterAuthDBSchema.
Hypothesis Hresolve :
  forall key, resolveModelName tables key = resolveModelName tables' key.

Lemma buildColumnChain_ext (key : string) (f : DBFieldAttribute) :
  buildColumnChain key f tables = buildColumnChain key f tables'.
Proof.
  unfold buildColumnChain. cbv zeta.
  destruct (references f) as [refs|]; [|reflexivity].
  specialize (Hresolve (model refs)). unfold resolveModelName in Hresolve.
  destruct (Js.get tables (model refs)); destruct (Js.get tables' (model refs));
    try discriminate Hresolve; [|reflexivity].
  injection Hresolve as E. rewrite E. reflexivity.
Qed.

Lemma generateCreateTableBlock_ext (name : string) (fs : Fields) (indent : string) :
  generateCreateTableBlock name fs tables indent
  = generateCreateTableBlock name fs tables' indent.
Proof.
  unfold generateCreateTableBlock. cbv zeta.
  rewrite (map_ext _ (fun kf =>
             (indent ++ "  table."
                ++ buildColumnChain (fst kf) (snd kf) tables')%string));
    [|intros kf; rewrite buildColumnChain_ext; reflexivity].
  destruct (Js.get fs "id"); [rewrite buildColumnChain_ext|]; reflexivity.
Qed.

Lemma addColumnLines_ext (cols : list string) (fs : Fields) :
  addColumnLines tables cols fs = addColumnLines tables' cols fs.
Proof.
  unfold addColumnLines. apply flat_map_ext. intros kf.
  rewrite buildColumnChain_ext. reflexivity.
Qed.

Lemma reconcileTable_ext
    (existingTables : list string) (existingColumns : list (string * list string))
    (acc : Statements) (t : Table) :
  reconcileTable tables existingTables existingColumns acc t
  = reconcileTable tables' existingTables existingColumns acc t.
Proof.
  unfold reconcileTable, createTableStatement.
  rewrite generateCreateTableBlock_ext, addColumnLines_ext. reflexivity.
Qed.

Lemma fold_reconcileTable_ext
    (existingTables : list string) (existingColumns : list (string * list string))
    (l : list Table) (acc : Statements) :
  fold_left (reconcileTable tables existingTables existingColumns) l acc
  = fold_left (reconcileTable tables' existingTables existingColumns) l acc.
Proof.
  revert acc. induction l as [|t r IH]; intros acc; [reflexivity|].
  simpl. rewrite reconcileTable_ext. apply IH.
Qed.

Hypothesis Hactive : activeTables tables = activeTables tables'.

Lemma generateLucidMigration_ext (db : Database) (now : Date) (file : option string) :
  generateLucidMigration db now tables file
  = generateLucidMigration db now tables' file.
Proof.
  assert (Hi : incremental db tables = incremental db tables').
  { unfold incremental, desiredTableNames. cbv zeta.
    rewrite <- Hactive, fold_reconcileTable_ext. reflexivity. }
  assert (Hu : freshUpBlocks tables = freshUpBlocks tables').
  { unfold freshUpBlocks. rewrite <- Hactive. apply map_ext. intros t.
    unfold createTableStatement. apply generateCreateTableBlock_ext. }
  assert (Hd : freshDownLines tables = freshDownLines tables').
  { unfold freshDownLines. rewrite Hactive. reflexivity. }
  unfold generateLucidMigration. rewrite Hi, Hu, Hd. reflexivity.
Qed.
End SchemaExtensionality.

(** X12. The generator reads the schema map only through the sorted list of
    active tables and through the model names that the keys resolve to: two
    schema maps that agree on both give the same artifact on every catalog.
    Changing the order or the fields of a table excluded from migrations
    therefore changes nothing. *)
Theorem schema_read_through_active_tables
    (tables tables' : BetterAuthDBSchema)
    (db : Database) (now : Date) (file : option string) :
  (forall key, resolveModelName tables key = resolveModelName tables' key) ->
  activeTables tables = activeTables tables' ->
  generateLucidMigration db now tables file
  = generateLucidMigration db now tables' file.
Proof. intros Hr Ha. apply generateLucidMigration_ext; assumption. Qed.

Lemma schema_read_through_active_tables_witness :
  generateLucidMigration Sample.emptyDb Sample.clock
    Sample.schemaWithDisabledTarget None
  = generateLucidMigration Sample.emptyDb Sample.clock
      Sample.schemaWithOtherDisabledTarget None.
Proof.
  apply (schema_read_through_active_tables Sample.schemaWithDisabledTarget
           Sample.schemaWithOtherDisabledTarget).
  - intros key. unfold resolveModelName. simpl.
    destruct (String.eqb key "user"); [reflexivity|].
    destruct (String.eqb key "profile"); [reflexivity|].
    destruct (String.eqb key "legacy"); reflexivity.
  - reflexivity.
Defined.

(** ** Time stamps *)

Lemma checked_range (P : N -> bool) (lo hi : N) :
  forallb P (map N.of_nat (seq (N.to_nat lo) (N.to_nat (hi - lo)))) = true ->
  forall n, (lo <= n < hi)%N -> P n = true.
Proof.
  intros H n Hn. rewrite forallb_forall in H. apply H.
  apply in_map_iff. exists (N.to_nat n). split; [apply N2Nat.id|].
  apply in_seq. lia.
Qed.

Lemma pad_twoDigits (n : N) : (n < 100)%N -> twoDigits n = true.
Proof.
  intros H. apply (checked_range twoDigits 0 100); [vm_compute; reflexivity|].
  lia.
Qed.

Lemma year_fourDigits (n : N) : (1000 <= n < 10000)%N -> fourDigits n = true.
Proof.
  intros H. apply (checked_range fourDigits 1000 10000); [vm_compute; reflexivity|].
  lia.
Qed.

Lemma twoDigits_inv (n : N) :
  twoDigits n = true ->
  String.length (Js.pad n) = 2
  /\ allChars isDigit (Js.pad n) = true
  /\ parseNumber (Js.pad n) = Some n.
Proof.
  unfold twoDigits. intros H.
  apply andb_true_iff in H. destruct H as [H H3].
  apply andb_true_iff in H. destruct H as [H1 H2].
  apply Nat.eqb_eq in H1. repeat split; try assumption.
  destruct (parseNumber (Js.pad n)); [|discriminate H3].
  apply N.eqb_eq in H3. now subst.
Qed.

Lemma fourDigits_inv (n : N) :
  fourDigits n = true ->
  String.length (Js.numberToString n) = 4
  /\ allChars isDigit (Js.numberToString n) = true
  /\ parseNumber (Js.numberToString n) = Some n.
Proof.
  unfold fourDigits. intros H.
  apply andb_true_iff in H. destruct H as [H H3].
  apply andb_true_iff in H. destruct H as [H1 H2].
  apply Nat.eqb_eq in H1. repeat split; try assumption.
  destruct (parseNumber (Js.numberToString n)); [|discriminate H3].
  apply N.eqb_eq in H3. now subst.
Qed.

Lemma string_length_app (a b : string) :
  String.length (a ++ b)%string = String.length a + String.length b.
Proof. induction a as [|c a IH]; simpl; [reflexivity | now rewrite IH]. Qed.

Lemma allChars_app (p : ascii -> bool) (a b : string) :
  allChars p (a ++ b)%string = allChars p a && allChars p b.
Proof.
  induction a as [|c a IH]; simpl; [reflexivity|].
  rewrite IH, andb_assoc. reflexivity.
Qed.

Lemma splitAt_app (n : nat) (a b : string) :
  String.length a = n -> splitAt n (a ++ b)%string = (a, b).
Proof.
  revert a. induction n as [|n IH]; intros a H.
  - destruct a; [|discriminate H]. destruct b; reflexivity.
  - destruct a as [|c a]; [discriminate H|].
    simpl. injection H as H. rewrite (IH a H). reflexivity.
Qed.

Lemma generateTimestamp_parts (now : Date) :
  generateTimestamp now
  = (Js.numberToString (getFullYear now)
       ++ Js.pad (getMonth now + 1) ++ Js.pad (getDate now)
       ++ Js.pad (getHours now) ++ Js.pad (getMinutes now)
       ++ Js.pad (getSeconds now))%string.
Proof. reflexivity. Qed.

Lemma date_eta (d : Date) :
  {| getFullYear := getFullYear d; getMonth := getMonth d;
     getDate := getDate d; getHours := getHours d;
     getMinutes := getMinutes d; getSeconds := getSeconds d |} = d.
Proof. destruct d; reflexivity. Qed.

Section ValidDate.
Variable now : Date.
Hypothesis Hvalid : fourDigitYearDate now.

Let year := fourDigits_inv (getFullYear now)
              (year_fourDigits _ (proj1 Hvalid)).

Lemma valid_month : twoDigits (getMonth now + 1) = true.
Proof. apply pad_twoDigits. pose proof Hvalid as [_ [H _]]. lia. Qed.

Lemma valid_date : twoDigits (getDate now) = true.
Proof. apply pad_twoDigits. pose proof Hvalid as [_ [_ [H _]]]. lia. Qed.

Lemma valid_hours : twoDigits (getHours now) = true.
Proof. apply pad_twoDigits. pose proof Hvalid as [_ [_ [_ [H _]]]]. lia. Qed.

Lemma valid_minutes : twoDigits (getMinutes now) = true.
Proof. apply pad_twoDigits. pose proof Hvalid as [_ [_ [_ [_ [H _]]]]]. lia. Qed.

Lemma valid_seconds : twoDigits (getSeconds now) = true.
Proof. apply pad_twoDigits. pose proof Hvalid as [_ [_ [_ [_ [_ H]]]]]. lia. Qed.

Lemma generateTimestamp_length : String.length (generateTimestamp now) = 14.
Proof.
  rewrite generateTimestamp_parts, !string_length_app.
  destruct year as [Hy _].
  destruct (twoDigits_inv _ valid_month) as [H1 _].
  destruct (twoDigits_inv _ valid_date) as [H2 _].
  destruct (twoDigits_inv _ valid_hours) as [H3 _].
  destruct (twoDigits_inv _ valid_minutes) as [H4 _].
  destruct (twoDigits_inv _ valid_seconds) as [H5 _].
  rewrite Hy, H1, H2, H3, H4, H5. reflexivity.
Qed.

Lemma generateTimestamp_digits : allChars isDigit (generateTimestamp now) = true.
Proof.
  rewrite generateTimestamp_parts, !allChars_app.
  destruct year as [_ [Hy _]].
  destruct (twoDigits_inv _ valid_month) as [_ [H1 _]].
  destruct (twoDigits_inv _ valid_date) as [_ [H2 _]].
  destruct (twoDigits_inv _ valid_hours) as [_ [H3 _]].
  destruct (twoDigits_inv _ valid_minutes) as [_ [H4 _]].
  destruct (twoDigits_inv _ valid_seconds) as [_ [H5 _]].
  rewrite Hy, H1, H2, H3, H4, H5. reflexivity.
Qed.

Lemma readTimestamp_generateTimestamp :
  readTimestamp (generateTimestamp now) = Some now.
Proof.
  rewrite generateTimestamp_parts. unfold readTimestamp.
  destruct year as [Ly [_ Py]].
  destruct (twoDigits_inv _ valid_month) as [L1 [_ P1]].
  destruct (twoDigits_inv _ valid_date) as [L2 [_ P2]].
  destruct (twoDigits_inv _ valid_hours) as [L3 [_ P3]].
  destruct (twoDigits_inv _ valid_minutes) as [L4 [_ P4]].
  destruct (twoDigits_inv _ valid_seconds) as [_ [_ P5]].
  rewrite (splitAt_app 4 _ _ Ly), (splitAt_app 2 _ _ L1),
    (splitAt_app 2 _ _ L2), (splitAt_app 2 _ _ L3), (splitAt_app 2 _ _ L4).
  rewrite Py, P1, P2, P3, P4, P5.
  rewrite N.add_sub. f_equal. apply date_eta.
Qed.
End ValidDate.

(** X13. For a date with a four-digit year the time stamp is made of exactly
    fourteen decimal digits; the file name of the configure hook and the
    default path of the generator carry it in front of, respectively around,
    their fixed text. *)
Theorem timestamp_format (now : Date) :
  fourDigitYearDate now ->
  String.length (generateTimestamp now) = 14
  /\ allChars isDigit (generateTimestamp now) = true
  /\ splitAt 14 (configureFileName now)
     = (generateTimestamp now, "_create_better_auth_tables")
  /\ (forall db tables,
         path (generateLucidMigration db now tables None)
         = ("database/migrations/" ++ generateTimestamp now
              ++ "_better_auth_schema.ts")%string).
Proof.
  intros H. split; [apply generateTimestamp_length, H|].
  split; [apply generateTimestamp_digits, H|]. split.
  - apply splitAt_app, generateTimestamp_length, H.
  - intros db tables. unfold generateLucidMigration. cbv zeta.
    destruct (isFresh db); [reflexivity|].
    destruct (upStatements (incremental db tables));
      destruct (warnings (incremental db tables)); reflexivity.
Qed.

Lemma fourDigitYearDate_clock : fourDigitYearDate Sample.clock.
Proof. unfold fourDigitYearDate. simpl. lia. Qed.

Lemma timestamp_format_witness :
  fourDigitYearDate Sample.clock
  /\ generateTimestamp Sample.clock = "20240105130409"
  /\ String.length (generateTimestamp Sample.clock) = 14.
Proof.
  split; [exact fourDigitYearDate_clock|]. split; [reflexivity|].
  exact (proj1 (timestamp_format Sample.clock fourDigitYearDate_clock)).
Defined.

(** X14. For dates with a four-digit year the time stamp can be read back:
    cutting it after four, six, eight, ten and twelve characters and parsing
    the parts gives the getters of the date again.  Two dates with the same
    time stamp are therefore the same to the second. *)
Theorem timestamp_round_trip (now : Date) :
  fourDigitYearDate now ->
  readTimestamp (generateTimestamp now) = Some now
  /\ forall other,
      fourDigitYearDate other ->
      generateTimestamp other = generateTimestamp now ->
      other = now.
Proof.
  intros H. split; [apply readTimestamp_generateTimestamp, H|].
  intros other Ho E.
  pose proof (readTimestamp_generateTimestamp other Ho) as R.
  rewrite E, (readTimestamp_generateTimestamp now H) in R.
  now injection R.
Qed.

Lemma timestamp_round_trip_witness :
  fourDigitYearDate Sample.clock
  /\ readTimestamp "20240105130409" = Some Sample.clock.
Proof.
  split; [exact fourDigitYearDate_clock|].
  exact (proj1 (timestamp_round_trip Sample.clock fourDigitYearDate_clock)).
Defined.

(** ** The column name read back by the regular expression *)

(** X15. From the line that adds a column, the regular expression of the
    rollback reads back the resolved column name when that name is not empty
    and holds no single quote; when the name holds a single quote after a
    first part that is not empty, it reads back that first part only. *)
Theorem column_name_read_back
    (tables : BetterAuthDBSchema) (key : string) (f : DBFieldAttribute) :
  (plainColumnName (getColumnName key f) = true ->
   matchColumn (addColumnLine tables (key, f)) = Some (getColumnName key f))
  /\ (forall a b,
         plainColumnName a = true ->
         getColumnName key f = (a ++ "'" ++ b)%string ->
         matchColumn (addColumnLine tables (key, f)) = Some a).
Proof.
  split.
  - intros H. apply (matchColumn_addColumnLine tables (key, f) H).
  - intros a b Ha E. unfold addColumnLine. cbn [fst snd].
    destruct (buildColumnChain_shape key f tables) as [rest R].
    rewrite R, E. destruct (getKnexType_word f) as [Hw Hne].
    replace (getKnexType f ++ "('" ++ (a ++ "'" ++ b) ++ "'" ++ rest)%string
      with (getKnexType f ++ "('" ++ a ++ "'" ++ (b ++ "'" ++ rest))%string.
    + apply matchColumn_line; assumption.
    + simpl. rewrite string_app_assoc. reflexivity.
Qed.

Lemma column_name_read_back_witness :
  matchColumn
    (addColumnLine Sample.CORE_SCHEMA
       ("userId",
        Sample.referencing "user" "id" (Some "cascade") (Sample.attribute "string")))
  = Some "user_id"
  /\ matchColumn
       (addColumnLine Sample.CORE_SCHEMA
          ("note", Sample.named "old'name" (Sample.attribute "string")))
     = Some "old".
Proof.
  split.
  - apply (proj1 (column_name_read_back Sample.CORE_SCHEMA "userId"
                    (Sample.referencing "user" "id" (Some "cascade")
                       (Sample.attribute "string")))).
    reflexivity.
  - apply (proj2 (column_name_read_back Sample.CORE_SCHEMA "note"
                    (Sample.named "old'name" (Sample.attribute "string")))
             "old" "name");
      reflexivity.
Defined.

(** ** The WHERE condition helper *)

Section WhereConditions.
Variable Value : Type.
Variable isArray : Value -> option (list Value).
Variable toText : Value -> string.

Let Condition := Where.CleanedWhere Value.
Let Call := Where.Call Value.
Let callOf := Where.callOf Value isArray toText.
Let applyFrom := Where.applyFrom Value isArray toText.
Let applyWhereConditions := Where.applyWhereConditions Value isArray toText.

Lemma isOrCall_callOf (useOr : bool) (w : Condition) :
  Where.isOrCall Value (callOf useOr w) = useOr.
Proof.
  unfold callOf, Where.callOf.
  repeat match goal with
         | |- context [if ?b then _ else _] => destruct b
         end; reflexivity.
Qed.

Lemma callField_callOf (useOr : bool) (w : Condition) :
  Where.callField Value (callOf useOr w) = Where.field Value w.
Proof.
  unfold callOf, Where.callOf.
  repeat match goal with
         | |- context [if ?b then _ else _] => destruct b
         end; reflexivity.
Qed.

Lemma applyFrom_query (i : nat) (query : list Call) (conditions : list Condition) :
  applyFrom i query conditions = query ++ applyFrom i [] conditions.
Proof.
  revert i query. induction conditions as [|w r IH]; intros i query.
  - simpl. rewrite app_nil_r. reflexivity.
  - simpl. rewrite IH, (IH (S i) [_]), app_assoc. reflexivity.
Qed.

Lemma applyFrom_cons (i : nat) (w : Condition) (r : list Condition) :
  applyFrom i [] (w :: r)
  = callOf ((0 <? i)%nat && String.eqb (Where.connector Value w) "OR") w
    :: applyFrom (S i) [] r.
Proof. simpl. rewrite applyFrom_query. reflexivity. Qed.

Lemma applyFrom_positive (i j : nat) (conditions : list Condition) :
  0 < i -> 0 < j -> applyFrom i [] conditions = applyFrom j [] conditions.
Proof.
  revert i j. induction conditions as [|w r IH]; intros i j Hi Hj; [reflexivity|].
  rewrite !applyFrom_cons.
  apply Nat.ltb_lt in Hi, Hj. rewrite Hi, Hj.
  f_equal. apply IH; apply Nat.lt_0_succ.
Qed.

Lemma applyFrom_app (i : nat) (query : list Call) (w1 w2 : list Condition) :
  applyFrom i query (w1 ++ w2)
  = applyFrom (i + List.length w1) (applyFrom i query w1) w2.
Proof.
  revert i query. induction w1 as [|w r IH]; intros i query.
  - simpl. rewrite Nat.add_0_r. reflexivity.
  - simpl. rewrite IH. f_equal. lia.
Qed.

(** X16. [applyWhereConditions] only adds to the query: the calls already
    made are kept in front, and one call is added for each condition, in the
    order of the conditions and on the field of its condition. *)
Theorem where_appends_one_call_each
    (query : list Call) (conditions : list Condition) :
  applyWhereConditions query conditions
  = query ++ applyWhereConditions [] conditions
  /\ List.length (applyWhereConditions [] conditions) = List.length conditions
  /\ map (Where.callField Value) (applyWhereConditions [] conditions)
     = map (Where.field Value) conditions.
Proof.
  unfold applyWhereConditions, Where.applyWhereConditions.
  split; [apply applyFrom_query|].
  fold applyFrom. generalize 0.
  induction conditions as [|w r IH]; intros i; [split; reflexivity|].
  rewrite applyFrom_cons. destruct (IH (S i)) as [IH1 IH2].
  cbn [List.length map]. rewrite IH1, IH2, callField_callOf.
  split; reflexivity.
Qed.

(** X17. The call added for a condition joins with OR exactly when the
    condition is not the first one and its connector is [OR]; the connector
    of the first condition is not read. *)
Theorem where_or_calls (conditions : list Condition) :
  (forall i w,
      nth_error conditions i = Some w ->
      exists call,
        nth_error (applyWhereConditions [] conditions) i = Some call
        /\ Where.isOrCall Value call
           = (0 <? i)%nat && String.eqb (Where.connector Value w) "OR")
  /\ (forall query w r c,
         applyWhereConditions query (w :: r)
         = applyWhereConditions query (Where.withConnector Value c w :: r)).
Proof.
  split.
  - unfold applyWhereConditions, Where.applyWhereConditions. fold applyFrom.
    assert (H : forall k i w,
               nth_error conditions i = Some w ->
               exists call,
                 nth_error (applyFrom k [] conditions) i = Some call
                 /\ Where.isOrCall Value call
                    = (0 <? k + i)%nat
                      && String.eqb (Where.connector Value w) "OR").
    { induction conditions as [|w0 r IH]; intros k i w Hi.
      - destruct i; discriminate Hi.
      - rewrite applyFrom_cons. destruct i as [|i].
        + injection Hi as Hi. subst w0. eexists. split; [reflexivity|].
          rewrite isOrCall_callOf, Nat.add_0_r. reflexivity.
        + simpl in Hi. destruct (IH (S k) i w Hi) as [call [Hc Ho]].
          exists call. split; [exact Hc|].
          rewrite Ho. replace (S k + i) with (k + S i) by lia. reflexivity. }
    intros i w Hi. apply (H 0 i w Hi).
  - intros query w r c.
    unfold applyWhereConditions, Where.applyWhereConditions. reflexivity.
Qed.

(** X18. Conditions can be applied in batches when no later batch starts
    with the connector [OR]: applying a list is then applying its first part
    and its second part in turn.  When the second part starts with [OR] and
    the first part is not empty, the two differ: applied on its own, the
    second part loses its leading OR. *)
Theorem where_in_batches
    (query : list Call) (w1 w2 : list Condition) :
  (match w2 with
   | [] => True
   | w :: _ => Where.connector Value w <> "OR"
   end ->
   applyWhereConditions query (w1 ++ w2)
   = applyWhereConditions (applyWhereConditions query w1) w2)
  /\ (forall w r,
         w1 <> [] ->
         w2 = w :: r ->
         Where.connector Value w = "OR" ->
         applyWhereConditions query (w1 ++ w2)
         <> applyWhereConditions (applyWhereConditions query w1) w2).
Proof.
  unfold applyWhereConditions, Where.applyWhereConditions. fold applyFrom.
  split.
  - intros H. rewrite applyFrom_app. simpl Nat.add.
    rewrite (applyFrom_query _ (applyFrom 0 query w1)).
    rewrite (applyFrom_query 0 (applyFrom 0 query w1)).
    f_equal. destruct w2 as [|w r]; [reflexivity|].
    rewrite !applyFrom_cons.
    apply String.eqb_neq in H. rewrite H, !andb_false_r.
    f_equal. destruct w1 as [|w0 r0]; [reflexivity|].
    apply applyFrom_positive; simpl; lia.
  - intros w r Hne E Hor. subst w2. rewrite applyFrom_app. simpl Nat.add.
    rewrite (applyFrom_query _ (applyFrom 0 query w1)).
    rewrite (applyFrom_query 0 (applyFrom 0 query w1)).
    intros Heq. apply app_inv_head in Heq.
    rewrite !applyFrom_cons in Heq. injection Heq as Hcall _.
    apply (f_equal (Where.isOrCall Value)) in Hcall.
    rewrite !isOrCall_callOf, Hor in Hcall.
    destruct w1 as [|w0 r0]; [contradiction Hne; reflexivity|].
    discriminate Hcall.
Qed.

(** X19. An operator that is none of the eleven known ones, and no member
    name of [Object.prototype], is treated as [eq]: the condition becomes a
    comparison of the field with the value by [=]. *)
Theorem where_unknown_operator_is_eq (useOr : bool) (w : Condition) :
  ~ In (Where.operator Value w) Where.knownOperators ->
  ~ In (Where.operator Value w) Where.objectPrototypeMembers ->
  callOf useOr w = callOf useOr (Where.withOperator Value "eq" w)
  /\ callOf false w
     = Where.where_ Value (Where.field Value w) (Where.Symbol "=")
         (Where.Plain Value (Where.value Value w)).
Proof.
  intros Hk Hp.
  assert (Hn : forall op, In op Where.knownOperators ->
                          String.eqb (Where.operator Value w) op = false).
  { intros op Hin. apply String.eqb_neq. intros E. apply Hk. now rewrite E. }
  assert (Hs : Where.sqlOp (Where.operator Value w) = Where.Symbol "=").
  { unfold Where.sqlOp, Where.opMap. cbn [Js.get].
    rewrite !Hn by (simpl; tauto).
    assert (Hh : Js.has Where.objectPrototypeMembers (Where.operator Value w)
                 = false).
    { destruct (Js.has Where.objectPrototypeMembers (Where.operator Value w))
        eqn:E; [|reflexivity].
      apply has_In in E. contradiction. }
    rewrite Hh. reflexivity. }
  unfold callOf, Where.callOf.
  rewrite !Hn by (simpl; tauto). rewrite Hs.
  split; [destruct useOr; reflexivity | reflexivity].
Qed.
End WhereConditions.

Lemma where_or_calls_witness :
  exists call,
    nth_error
      (Sample.applyToStrings []
         [ Sample.condition "email" "eq" "a@example.com" "OR";
           Sample.condition "email" "eq" "b@example.com" "OR" ])
      1
    = Some call
    /\ Where.isOrCall string call = true.
Proof.
  exact (proj1 (where_or_calls string Sample.notAnArray Sample.asText
                  [ Sample.condition "email" "eq" "a@example.com" "OR";
                    Sample.condition "email" "eq" "b@example.com" "OR" ])
           1 (Sample.condition "email" "eq" "b@example.com" "OR") eq_refl).
Defined.

Lemma where_in_batches_witness :
  Sample.applyToStrings []
    ([ Sample.condition "email" "eq" "a@example.com" "AND" ]
     ++ [ Sample.condition "name" "contains" "a" "AND";
          Sample.condition "name" "contains" "b" "OR" ])
  = Sample.applyToStrings
      (Sample.applyToStrings []
         [ Sample.condition "email" "eq" "a@example.com" "AND" ])
      [ Sample.condition "name" "contains" "a" "AND";
        Sample.condition "name" "contains" "b" "OR" ]
  /\ Sample.applyToStrings []
       ([ Sample.condition "email" "eq" "a@example.com" "AND" ]
        ++ [ Sample.condition "name" "contains" "b" "OR" ])
     <> Sample.applyToStrings
          (Sample.applyToStrings []
             [ Sample.condition "email" "eq" "a@example.com" "AND" ])
          [ Sample.condition "name" "contains" "b" "OR" ].
Proof.
  split.
  - apply (proj1 (where_in_batches string Sample.notAnArray Sample.asText []
                    [ Sample.condition "email" "eq" "a@example.com" "AND" ]
                    [ Sample.condition "name" "contains" "a" "AND";
                      Sample.condition "name" "contains" "b" "OR" ])).
    discriminate.
  - apply (proj2 (where_in_batches string Sample.notAnArray Sample.asText []
                    [ Sample.condition "email" "eq" "a@example.com" "AND" ]
                    [ Sample.condition "name" "contains" "b" "OR" ])
             (Sample.condition "name" "contains" "b" "OR") []).
    + discriminate.
    + reflexivity.
    + reflexivity.
Defined.

Lemma where_unknown_operator_is_eq_witness :
  Where.callOf string Sample.notAnArray Sample.asText false
    (Sample.condition "email" "matches" "a@example.com" "AND")
  = Where.where_ string "email" (Where.Symbol "=") (Where.Plain string "a@example.com").
Proof.
  apply (where_unknown_operator_is_eq string Sample.notAnArray Sample.asText
           false (Sample.condition "email" "matches" "a@example.com" "AND")).
  - simpl. intuition discriminate.
  - simpl. intuition discriminate.
Defined.

(** ** What the rollback touches *)



(** ** The migration document *)



